(** * BookingModal: booking flow, availability, pricing and submission

    A shallow embedding of the logic of the booking modal component
    ([BookingModal], React/TypeScript): the step machine ([nextStep],
    [prevStep]), the slot derivation ([getDayOperatingHours],
    [getAvailableTimes], [hasAvailableTimes]), the price computation
    ([getServiceDiscount], [getDiscountedPrice]) and the submission handler
    ([handleSubmit]); of the registration page ([Register]: the strength
    meter, [validateForm] with its patterns, [handleSubmit]); and of the
    vendor profile page ([VendorProfile]: prices, offer cards and the
    opening line).

    Conventions of the embedding:
    - a JS number that holds a count or a minute of the day is a [Z], and
      where [parseInt] may yield NaN it is an [option Z] with [None] for NaN;
    - money and percentages are modelled twice: as IEEE 754 binary64 values
      ([Double], [Binary64], over the primitive floats) for the value of the
      final price, and as exact rationals [Q] for the submission handler and
      for the order relations between the amounts the code computes;
    - a JS string is a [string] of bytes; where a statement measures a
      length or scans for white space it is made for ASCII text, in which a
      byte is a character;
    - the object [vendor.operatingHours] is a finite map from key to hours;
    - React state is a record; a handler maps the state of the render it
      was created in to the state after all its setters have run, together
      with the trace of the calls it made to the collaborators;
    - the modal is a transition system in two grains: [step], in which a
      submission is one transition, and [liveStep], with the calendar of
      the date step and a submission that waits for [signup]. *)

From Stdlib Require Import Floats.
From Stdlib Require Import ZArith QArith Qround Qminmax Lqa String Ascii List Lia DecimalString.
From stdpp Require Import base option gmap strings list.
Import ListNotations.

Local Open Scope string_scope.
Local Open Scope Z_scope.

(** ** JavaScript string and number primitives used by the component *)

Module JS.

(** Truthiness of a string: only the empty string is falsy. *)
Definition truthy (s : string) : bool :=
  match s with
  | EmptyString => false
  | String _ _ => true
  end.

(** [String.prototype.split] with a one-character separator. The result is
    never empty: a string without separator gives a one-element array. *)
Fixpoint split (sep : ascii) (s : string) : list string :=
  match s with
  | EmptyString => [EmptyString]
  | String c rest =>
      if Ascii.eqb c sep then EmptyString :: split sep rest
      else match split sep rest with
           | [] => [String c EmptyString]
           | piece :: pieces => String c piece :: pieces
           end
  end.

Definition isWhiteSpace (c : ascii) : bool :=
  let n := nat_of_ascii c in
  (Nat.eqb n 32 || (Nat.leb 9 n && Nat.leb n 13))%bool.

Fixpoint trimStart (s : string) : string :=
  match s with
  | String c rest => if isWhiteSpace c then trimStart rest else s
  | EmptyString => s
  end.

(** Value of a digit in the given radix (10 or 16), if it is one. *)
Definition digitValue (radix : Z) (c : ascii) : option Z :=
  let n := Z.of_nat (nat_of_ascii c) in
  let v :=
    if (48 <=? n) && (n <=? 57) then Some (n - 48)
    else if (97 <=? n) && (n <=? 122) then Some (n - 87)
    else if (65 <=? n) && (n <=? 90) then Some (n - 55)
    else None in
  match v with
  | Some d => if d <? radix then Some d else None
  | None => None
  end.

(** Longest prefix of digits, accumulated; [acc] is [None] until a digit
    has been read. *)
Fixpoint parseDigits (radix : Z) (s : string) (acc : option Z) : option Z :=
  match s with
  | EmptyString => acc
  | String c rest =>
      match digitValue radix c with
      | Some d => parseDigits radix rest (Some (radix * default 0 acc + d))
      | None => acc
      end
  end.

(** [parseInt(s)] without radix argument: leading white space, an optional
    sign, an optional [0x]/[0X] prefix, then the longest run of digits;
    [None] is NaN. *)
Definition parseInt (s : string) : option Z :=
  let s := trimStart s in
  let '(sign, s) :=
    match s with
    | String "-" rest => (-1, rest)
    | String "+" rest => (1, rest)
    | _ => (1, s)
    end in
  let '(radix, s) :=
    match s with
    | String "0" (String "x" rest) => (16, rest)
    | String "0" (String "X" rest) => (16, rest)
    | _ => (10, s)
    end in
  match parseDigits radix s None with
  | Some n => Some (sign * n)
  | None => None
  end.

(** [parseInt] applied to a possibly [undefined] array element. *)
Definition parseIntOpt (o : option string) : option Z :=
  match o with
  | Some s => parseInt s
  | None => None
  end.

(** [Number.prototype.toString] on an integer. *)
Definition toString (n : Z) : string := NilZero.string_of_int (Z.to_int n).

Fixpoint repeatChar (c : ascii) (n : nat) : string :=
  match n with
  | O => EmptyString
  | S n' => String c (repeatChar c n')
  end.

(** [s.padStart(len, c)] with a one-character filler. *)
Definition padStart (len : nat) (c : ascii) (s : string) : string :=
  repeatChar c (len - String.length s) +:+ s.

Definition toLowerChar (c : ascii) : ascii :=
  let n := nat_of_ascii c in
  if (Nat.leb 65 n && Nat.leb n 90)%bool then ascii_of_nat (n + 32) else c.

Fixpoint toLowerCase (s : string) : string :=
  match s with
  | EmptyString => EmptyString
  | String c rest => String (toLowerChar c) (toLowerCase rest)
  end.

Definition toUpperChar (c : ascii) : ascii :=
  let n := nat_of_ascii c in
  if (Nat.leb 97 n && Nat.leb n 122)%bool then ascii_of_nat (n - 32) else c.

Fixpoint toUpperCase (s : string) : string :=
  match s with
  | EmptyString => EmptyString
  | String c rest => String (toUpperChar c) (toUpperCase rest)
  end.

(** [Math.floor(a / b)] and [a % b] on integers, [b] positive. *)
Definition floorDiv (a b : Z) : Z := a / b.
Definition remainder (a b : Z) : Z := Z.rem a b.

End JS.

(** ** Data model *)

(** A calendar date, as the local day count since 1970-01-01; the time of
    day of a [Date] plays no part in the component before submission. *)
Record Date := { epochDay : Z }.

(** [format(date, 'EEEE')]: the English weekday name; 1970-01-01 was a
    Thursday. *)
Definition formatEEEE (d : Date) : string :=
  match (epochDay d + 4) mod 7 with
  | 0 => "Sunday"
  | 1 => "Monday"
  | 2 => "Tuesday"
  | 3 => "Wednesday"
  | 4 => "Thursday"
  | 5 => "Friday"
  | _ => "Saturday"
  end.

Record Hours := { open : string; close : string }.

Record Vendor := { operatingHours : gmap string Hours }.

(** ** Availability *)

Definition getDayOperatingHours (date : Date) (vendor : Vendor) : Hours :=
  let dayName := JS.toLowerCase (formatEEEE date) in
  match operatingHours vendor !! dayName with
  | Some hours => hours
  | None => {| open := "09:00"; close := "17:00" |}
  end.

(** The template [`${hour.toString().padStart(2,'0')}:${minute.toString().padStart(2,'0')}`]
    of the slot loop. *)
Definition formatSlot (time : Z) : string :=
  let hour := JS.floorDiv time 60 in
  let minute := JS.remainder time 60 in
  JS.padStart 2 "0" (JS.toString hour) +:+ ":" +:+ JS.padStart 2 "0" (JS.toString minute).

(** The loop [for (let time = startTime; time < endTime; time += 30)];
    [fuel] bounds the number of iterations. *)
Fixpoint slotLoop (fuel : nat) (time endTime : Z) (times : list string) : list string :=
  match fuel with
  | O => times
  | S fuel' =>
      if time <? endTime
      then slotLoop fuel' (time + 30) endTime (times ++ [formatSlot time])
      else times
  end.

(** Element [i] of the 24-hour grid built by [Array.from({ length: 48 }, ...)]. *)
Definition fullDaySlot (i : nat) : string :=
  let hour := JS.floorDiv (Z.of_nat i) 2 in
  let minute := if JS.remainder (Z.of_nat i) 2 =? 0 then "00" else "30" in
  JS.padStart 2 "0" (JS.toString hour) +:+ ":" +:+ minute.

(** [hours * 60 + minutes] on numbers that may be NaN. *)
Definition minutesOfDay (h m : option Z) : option Z :=
  match h, m with
  | Some h, Some m => Some (h * 60 + m)
  | _, _ => None
  end.

Definition isClosed (hours : Hours) : bool :=
  String.eqb (open hours) "closed" && String.eqb (close hours) "closed".

Definition isFullDay (hours : Hours) : bool :=
  String.eqb (open hours) "00:00" && String.eqb (close hours) "23:59".

(** First element of a destructured split, and second element with its
    default ['0']. *)
Definition firstPiece (pieces : list string) : option string := pieces !! 0%nat.
Definition secondPieceOr (dflt : string) (pieces : list string) : string :=
  default dflt (pieces !! 1%nat).

Definition getAvailableTimes (selectedDate : option Date) (vendor : Vendor) : list string :=
  match selectedDate with
  | None => []
  | Some date =>
      let hours := getDayOperatingHours date vendor in
      if isClosed hours then []
      else if isFullDay hours then map fullDaySlot (seq 0 48)
      else
        let openPieces := JS.split ":" (open hours) in
        let closePieces := JS.split ":" (close hours) in
        let startTime :=
          minutesOfDay (JS.parseIntOpt (firstPiece openPieces))
                       (JS.parseInt (secondPieceOr "0" openPieces)) in
        let endTime :=
          minutesOfDay (JS.parseIntOpt (firstPiece closePieces))
                       (JS.parseInt (secondPieceOr "0" closePieces)) in
        match startTime, endTime with
        | Some startTime, Some endTime =>
            slotLoop (Z.to_nat (endTime - startTime)) startTime endTime []
        | _, _ => []
        end
  end.

Definition hasAvailableTimes (date : Date) (vendor : Vendor) : bool :=
  negb (isClosed (getDayOperatingHours date vendor)).

(** ** Services, offers, users and customer details *)

Module Service.
Record t := { id : string; name : string; duration : Z; price : Q }.
End Service.

Module Offer.
(** [startDate] and [endDate] are instants, as [new Date(...)] reads them. *)
Record t := {
  serviceId : string;
  discountPercentage : Q;
  active : bool;
  startDate : Z;
  endDate : Z }.
End Offer.

Module Wallet.
Record t := { coins : Z }.
End Wallet.

Module User.
Record t := { wallet : Wallet.t }.
End User.

(** The identity held by the authentication context ([currentUser]). *)
Module AuthUser.
Record t := { uid : string; email : string }.
End AuthUser.

Module CustomerDetails.
Record t := {
  firstName : string;
  lastName : string;
  email : string;
  phone : string;
  licensePlate : string;
  password : string }.

Definition setFirstName v c :=
  {| firstName := v; lastName := lastName c; email := email c; phone := phone c;
     licensePlate := licensePlate c; password := password c |}.
Definition setLastName v c :=
  {| firstName := firstName c; lastName := v; email := email c; phone := phone c;
     licensePlate := licensePlate c; password := password c |}.
Definition setEmail v c :=
  {| firstName := firstName c; lastName := lastName c; email := v; phone := phone c;
     licensePlate := licensePlate c; password := password c |}.
Definition setPhone v c :=
  {| firstName := firstName c; lastName := lastName c; email := email c; phone := v;
     licensePlate := licensePlate c; password := password c |}.
Definition setLicensePlate v c :=
  {| firstName := firstName c; lastName := lastName c; email := email c; phone := phone c;
     licensePlate := v; password := password c |}.
Definition setPassword v c :=
  {| firstName := firstName c; lastName := lastName c; email := email c; phone := phone c;
     licensePlate := licensePlate c; password := v |}.

(** The five mandatory fields are all non-empty. *)
Definition complete (c : t) : bool :=
  JS.truthy (firstName c) && JS.truthy (lastName c) && JS.truthy (email c) &&
  JS.truthy (phone c) && JS.truthy (licensePlate c).
End CustomerDetails.

(** ** Component props, context and state *)

Inductive Step := StepDate | StepTime | StepDetails | StepSignup | StepConfirm.

(** [currentStep === s]. *)
Definition Step_eqb (a b : Step) : bool :=
  match a, b with
  | StepDate, StepDate | StepTime, StepTime | StepDetails, StepDetails
  | StepSignup, StepSignup | StepConfirm, StepConfirm => true
  | _, _ => false
  end.

Record Props := { service : Service.t; vendorId : string; vendor : Vendor }.

Record State := {
  currentStep : Step;
  selectedDate : option Date;
  selectedTime : string;
  useCoins : bool;
  loading : bool;
  error : option string;
  showLoginPrompt : bool;
  bookingComplete : bool;
  userData : option User.t;
  offers : list Offer.t;
  customerDetails : CustomerDetails.t }.

Definition setCurrentStep v st :=
  {| currentStep := v; selectedDate := selectedDate st; selectedTime := selectedTime st;
     useCoins := useCoins st; loading := loading st; error := error st;
     showLoginPrompt := showLoginPrompt st; bookingComplete := bookingComplete st;
     userData := userData st; offers := offers st; customerDetails := customerDetails st |}.
Definition setSelectedDate v st :=
  {| currentStep := currentStep st; selectedDate := v; selectedTime := selectedTime st;
     useCoins := useCoins st; loading := loading st; error := error st;
     showLoginPrompt := showLoginPrompt st; bookingComplete := bookingComplete st;
     userData := userData st; offers := offers st; customerDetails := customerDetails st |}.
Definition setSelectedTime v st :=
  {| currentStep := currentStep st; selectedDate := selectedDate st; selectedTime := v;
     useCoins := useCoins st; loading := loading st; error := error st;
     showLoginPrompt := showLoginPrompt st; bookingComplete := bookingComplete st;
     userData := userData st; offers := offers st; customerDetails := customerDetails st |}.
Definition setUseCoins v st :=
  {| currentStep := currentStep st; selectedDate := selectedDate st; selectedTime := selectedTime st;
     useCoins := v; loading := loading st; error := error st;
     showLoginPrompt := showLoginPrompt st; bookingComplete := bookingComplete st;
     userData := userData st; offers := offers st; customerDetails := customerDetails st |}.
Definition setLoading v st :=
  {| currentStep := currentStep st; selectedDate := selectedDate st; selectedTime := selectedTime st;
     useCoins := useCoins st; loading := v; error := error st;
     showLoginPrompt := showLoginPrompt st; bookingComplete := bookingComplete st;
     userData := userData st; offers := offers st; customerDetails := customerDetails st |}.
Definition setError v st :=
  {| currentStep := currentStep st; selectedDate := selectedDate st; selectedTime := selectedTime st;
     useCoins := useCoins st; loading := loading st; error := v;
     showLoginPrompt := showLoginPrompt st; bookingComplete := bookingComplete st;
     userData := userData st; offers := offers st; customerDetails := customerDetails st |}.
Definition setShowLoginPrompt v st :=
  {| currentStep := currentStep st; selectedDate := selectedDate st; selectedTime := selectedTime st;
     useCoins := useCoins st; loading := loading st; error := error st;
     showLoginPrompt := v; bookingComplete := bookingComplete st;
     userData := userData st; offers := offers st; customerDetails := customerDetails st |}.
Definition setBookingComplete v st :=
  {| currentStep := currentStep st; selectedDate := selectedDate st; selectedTime := selectedTime st;
     useCoins := useCoins st; loading := loading st; error := error st;
     showLoginPrompt := showLoginPrompt st; bookingComplete := v;
     userData := userData st; offers := offers st; customerDetails := customerDetails st |}.
Definition setUserData v st :=
  {| currentStep := currentStep st; selectedDate := selectedDate st; selectedTime := selectedTime st;
     useCoins := useCoins st; loading := loading st; error := error st;
     showLoginPrompt := showLoginPrompt st; bookingComplete := bookingComplete st;
     userData := v; offers := offers st; customerDetails := customerDetails st |}.
Definition setOffers v st :=
  {| currentStep := currentStep st; selectedDate := selectedDate st; selectedTime := selectedTime st;
     useCoins := useCoins st; loading := loading st; error := error st;
     showLoginPrompt := showLoginPrompt st; bookingComplete := bookingComplete st;
     userData := userData st; offers := v; customerDetails := customerDetails st |}.
Definition setCustomerDetails v st :=
  {| currentStep := currentStep st; selectedDate := selectedDate st; selectedTime := selectedTime st;
     useCoins := useCoins st; loading := loading st; error := error st;
     showLoginPrompt := showLoginPrompt st; bookingComplete := bookingComplete st;
     userData := userData st; offers := offers st; customerDetails := v |}.

(** The [useState] initialisers; [currentUser?.email || ''] seeds the email. *)
Definition initialState (currentUser : option AuthUser.t) : State :=
  {| currentStep := StepDate;
     selectedDate := None;
     selectedTime := "";
     useCoins := false;
     loading := false;
     error := None;
     showLoginPrompt := false;
     bookingComplete := false;
     userData := None;
     offers := [];
     customerDetails :=
       {| CustomerDetails.firstName := "";
          CustomerDetails.lastName := "";
          CustomerDetails.email :=
            match currentUser with Some u => AuthUser.email u | None => "" end;
          CustomerDetails.phone := "";
          CustomerDetails.licensePlate := "";
          CustomerDetails.password := "" |} |}.

(** The effect [loadUserData], once both fetches have resolved: it runs only
    under [if (currentUser)]. *)
Definition loadUserData (currentUser : option AuthUser.t)
    (user : option User.t) (vendorOffers : list Offer.t) (st : State) : State :=
  match currentUser with
  | Some _ => setOffers (filter (fun o => Offer.active o = true) vendorOffers) (setUserData user st)
  | None => st
  end.

(** ** Pricing *)

(** [x || 0] on a number. *)
Definition orZero (x : Q) : Q := if Qeq_bool x 0 then 0%Q else x.

(** [now] is the instant [new Date()] reads while the offers are scanned. *)
Definition getServiceDiscount (p : Props) (now : Z) (st : State) : Q :=
  let activeOffer :=
    List.find (fun o =>
      String.eqb (Offer.serviceId o) (Service.id (service p)) &&
      (Offer.startDate o <=? now) && (Offer.endDate o >=? now)) (offers st) in
  match activeOffer with
  | Some o => orZero (Offer.discountPercentage o)
  | None => 0%Q
  end.

Definition getDiscountedPrice (p : Props) (now : Z) (st : State) : Q :=
  let discount := getServiceDiscount p now st in
  if negb (Qle_bool discount 0)
  then (Service.price (service p) * (1 - discount / 100))%Q
  else Service.price (service p).

(** [userData?.wallet.coins || 0]. *)
Definition walletCoinsOrZero (st : State) : Z :=
  match userData st with
  | Some u => Wallet.coins (User.wallet u)
  | None => 0
  end.

(** Value of one coin in currency. *)
Definition coinValue : Q := (1 # 2)%Q.

(** [Math.min(userData?.wallet.coins || 0, Math.floor(getDiscountedPrice() / 0.5))]:
    the coin count inside the [totalPrice] expression of [handleSubmit]. *)
Definition coinsAppliedToPrice (p : Props) (now : Z) (st : State) : Z :=
  Z.min (walletCoinsOrZero st) (Qfloor (getDiscountedPrice p now st / coinValue)).

(** The [totalPrice] field of [appointmentData]. *)
Definition totalPriceOf (p : Props) (now : Z) (st : State) : Q :=
  if useCoins st
  then Qmax 0 (getDiscountedPrice p now st - inject_Z (coinsAppliedToPrice p now st) * coinValue)
  else getDiscountedPrice p now st.

(** The second argument of [createAppointment]:
    [useCoins ? Math.min(userData?.wallet.coins || 0, Math.floor(service.price / 0.5)) : 0]. *)
Definition coinsToDebit (p : Props) (st : State) : Z :=
  if useCoins st
  then Z.min (walletCoinsOrZero st) (Qfloor (Service.price (service p) / coinValue))
  else 0.

(** ** Submission *)

Record DateTime := { day : Date; hours : option Z; minutes : option Z }.

Record CustomerSnapshot := {
  snapFirstName : string;
  snapLastName : string;
  snapEmail : string;
  snapPhone : string;
  snapLicensePlate : string }.

Module Appointment.
Record t := {
  customerId : string;
  vendorId : string;
  serviceId : string;
  date : DateTime;
  status : string;
  totalPrice : Q;
  customerDetails : CustomerSnapshot }.
End Appointment.

Inductive SignupResult :=
| SignupOk (uid : string)
| SignupFailed (code : string).

(** The collaborators as [handleSubmit] sees them: the clock, the outcome of
    [signup(email, password)], and whether [createAppointment] resolves. *)
Record Env := {
  now : Z;
  signup : string -> string -> SignupResult;
  createAppointment : Appointment.t -> Z -> bool }.

Inductive Call :=
| CallSignup (email password : string)
| CallCreateAppointment (data : Appointment.t) (coins : Z)
| CallSetTimeout (ms : Z).

Inductive Completion := Normal | Returned | Threw.

Definition msgSelectDateTime : string := "Valitse päivä ja aika".
Definition msgFillDetails : string := "Täytä kaikki asiakastiedot".
Definition msgEmailInUse : string := "Sähköposti on jo käytössä. Kirjaudu sisään jatkaaksesi.".
Definition msgLoginFailed : string := "Kirjautuminen epäonnistui".
Definition msgNotEnoughCoins : string := "Ei tarpeeksi kolikoita".
Definition msgBookingFailed : string := "Varauksen luonti epäonnistui. Yritä uudelleen.".

(** A boolean compared as a number. *)
Definition boolToNumber (b : bool) : Z := if b then 1 else 0.

(** [!userId] for [userId : string | undefined]. *)
Definition userIdMissing (userId : option string) : bool :=
  match userId with
  | Some s => negb (JS.truthy s)
  | None => true
  end.

Definition appointmentDateTime (selected : Date) (selectedTime : string) : DateTime :=
  let pieces := JS.split ":" selectedTime in
  {| day := selected;
     hours := JS.parseIntOpt (pieces !! 0%nat);
     minutes := JS.parseIntOpt (pieces !! 1%nat) |}.

Definition appointmentData (p : Props) (env : Env) (st : State)
    (userId : string) (selected : Date) : Appointment.t :=
  {| Appointment.customerId := userId;
     Appointment.vendorId := vendorId p;
     Appointment.serviceId := Service.id (service p);
     Appointment.date := appointmentDateTime selected (selectedTime st);
     Appointment.status := "confirmed";
     Appointment.totalPrice := totalPriceOf p (now env) st;
     Appointment.customerDetails :=
       {| snapFirstName := CustomerDetails.firstName (customerDetails st);
          snapLastName := CustomerDetails.lastName (customerDetails st);
          snapEmail := CustomerDetails.email (customerDetails st);
          snapPhone := CustomerDetails.phone (customerDetails st);
          snapLicensePlate := CustomerDetails.licensePlate (customerDetails st) |} |}.

(** The coin validation [!userData || useCoins > userData.wallet.coins],
    under [if (useCoins)]. *)
Definition insufficientCoins (st : State) : bool :=
  useCoins st &&
  match userData st with
  | None => true
  | Some u => Wallet.coins (User.wallet u) <? boolToNumber (useCoins st)
  end.

(** The [try] block of [handleSubmit], from the resolved user id on. The
    handler reads the state [st0] of the render that created it and its
    setters build up [st]. *)
Definition submitResolved (p : Props) (env : Env) (st0 st : State) (selected : Date)
    (userId : option string) (calls : list Call) : Completion * State * list Call :=
  match userId with
  | Some uid =>
      if negb (JS.truthy uid) then (Returned, setError (Some msgLoginFailed) st, calls)
      else if insufficientCoins st0 then (Returned, setError (Some msgNotEnoughCoins) st, calls)
      else
        let data := appointmentData p env st0 uid selected in
        let debit := coinsToDebit p st0 in
        let calls := (calls ++ [CallCreateAppointment data debit])%list in
        if createAppointment env data debit
        then (Normal, setBookingComplete true st, (calls ++ [CallSetTimeout 3000])%list)
        else (Threw, st, calls)
  | None => (Returned, setError (Some msgLoginFailed) st, calls)
  end.

(** The [try] block of [handleSubmit]. *)
Definition submitTry (p : Props) (currentUser : option AuthUser.t) (env : Env)
    (st0 : State) (selected : Date) : Completion * State * list Call :=
  let st := setError None (setLoading true st0) in
  let userId := AuthUser.uid <$> currentUser in
  let email := CustomerDetails.email (customerDetails st0) in
  let password := CustomerDetails.password (customerDetails st0) in
  match currentUser with
  | None =>
      if JS.truthy password then
        match signup env email password with
        | SignupOk uid =>
            submitResolved p env st0 st selected (Some uid) [CallSignup email password]
        | SignupFailed code =>
            if String.eqb code "auth/email-already-in-use"
            then (Returned, setError (Some msgEmailInUse) (setShowLoginPrompt true st),
                  [CallSignup email password])
            else (Threw, st, [CallSignup email password])
        end
      else submitResolved p env st0 st selected userId []
  | Some _ => submitResolved p env st0 st selected userId []
  end.

Definition handleSubmit (p : Props) (currentUser : option AuthUser.t) (env : Env)
    (st : State) : State * list Call :=
  match selectedDate st with
  | Some selected =>
      if negb (JS.truthy (selectedTime st)) then (setError (Some msgSelectDateTime) st, [])
      else if negb (CustomerDetails.complete (customerDetails st))
      then (setError (Some msgFillDetails) st, [])
      else
        let '(completion, st1, calls) := submitTry p currentUser env st selected in
        let st2 :=
          match completion with
          | Threw => setError (Some msgBookingFailed) st1
          | _ => st1
          end in
        (setLoading false st2, calls)
  | None => (setError (Some msgSelectDateTime) st, [])
  end.

(** Whether the trace holds a call to [createAppointment]. *)
Definition createsAppointment (calls : list Call) : bool :=
  existsb (fun c => match c with CallCreateAppointment _ _ => true | _ => false end) calls.

(** The login button is rendered under [error && ... showLoginPrompt && ...]. *)
Definition loginActionShown (st : State) : bool :=
  match error st with
  | Some msg => JS.truthy msg && showLoginPrompt st
  | None => false
  end.

(** ** Step machine *)

(** Truthiness of [selectedDate : Date | null]. *)
Definition isSome {A} (o : option A) : bool :=
  match o with
  | Some _ => true
  | None => false
  end.

Definition nextStep (currentUser : option AuthUser.t) (st : State) : State :=
  match currentStep st with
  | StepDate =>
      if isSome (selectedDate st) then setCurrentStep StepTime st else st
  | StepTime =>
      if JS.truthy (selectedTime st) then setCurrentStep StepDetails st else st
  | StepDetails =>
      if CustomerDetails.complete (customerDetails st) then
        match currentUser with
        | None => setCurrentStep StepSignup st
        | Some _ => setCurrentStep StepConfirm st
        end
      else st
  | StepSignup =>
      if JS.truthy (CustomerDetails.password (customerDetails st))
      then setCurrentStep StepConfirm st else st
  | StepConfirm => st
  end.

Definition prevStep (currentUser : option AuthUser.t) (st : State) : State :=
  match currentStep st with
  | StepDate => st
  | StepTime => setCurrentStep StepDate st
  | StepDetails => setCurrentStep StepTime st
  | StepSignup => setCurrentStep StepDetails st
  | StepConfirm =>
      setCurrentStep (match currentUser with Some _ => StepDetails | None => StepSignup end) st
  end.

(** The [disabled] attribute of the forward button. *)
Definition nextDisabled (st : State) : bool :=
  negb (isSome (selectedDate st))
  || (Step_eqb (currentStep st) StepTime && negb (JS.truthy (selectedTime st)))
  || (Step_eqb (currentStep st) StepDetails &&
      negb (CustomerDetails.complete (customerDetails st)))
  || (Step_eqb (currentStep st) StepSignup &&
      negb (JS.truthy (CustomerDetails.password (customerDetails st)))).

(** ** The modal as a transition system *)

(** One modal instance: the identity given by the authentication context and
    the component state. The props stay fixed for the instance's lifetime. *)
Record Modal := { currentUser : option AuthUser.t; state : State }.

(** Modelled from the spec: the authentication context is not among the
    sources; a successful [signup] makes the identity it created the current
    session ("adopt the newly created identity as the booking's customer"),
    and nothing else changes the session while the modal is open. *)
Definition sessionAfterSubmit (cu : option AuthUser.t) (env : Env) (calls : list Call)
    : option AuthUser.t :=
  match cu, calls with
  | Some u, _ => Some u
  | None, CallSignup email password :: _ =>
      match signup env email password with
      | SignupOk uid => Some {| AuthUser.uid := uid; AuthUser.email := email |}
      | SignupFailed _ => None
      end
  | None, _ => None
  end.

Definition withState (m : Modal) (st : State) : Modal :=
  {| currentUser := currentUser m; state := st |}.

(** The content of step [s] is on screen. *)
Definition shows (m : Modal) (s : Step) : Prop :=
  bookingComplete (state m) = false /\ currentStep (state m) = s.

Definition editDetails (f : CustomerDetails.t -> CustomerDetails.t) (st : State) : State :=
  setCustomerDetails (f (customerDetails st)) st.

(** What a user action or a resolved fetch does to the modal; each rule
    carries the condition under which the control is rendered and enabled.
    A submission is one transition, from the click to the last setter. *)
Inductive step (p : Props) : Modal -> Modal -> Prop :=
| step_select_date m d :
    shows m StepDate ->
    step p m (withState m (setSelectedDate (Some d) (state m)))
| step_select_time m t :
    shows m StepTime ->
    In t (getAvailableTimes (selectedDate (state m)) (vendor p)) ->
    step p m (withState m (setSelectedTime t (state m)))
| step_choose_other_day m :
    shows m StepTime ->
    getAvailableTimes (selectedDate (state m)) (vendor p) = [] ->
    step p m (withState m (setCurrentStep StepDate (state m)))
| step_edit_first_name m v :
    shows m StepDetails ->
    step p m (withState m (editDetails (CustomerDetails.setFirstName v) (state m)))
| step_edit_last_name m v :
    shows m StepDetails ->
    step p m (withState m (editDetails (CustomerDetails.setLastName v) (state m)))
| step_edit_license_plate m v :
    shows m StepDetails ->
    step p m (withState m
      (editDetails (CustomerDetails.setLicensePlate (JS.toUpperCase v)) (state m)))
| step_edit_email m v :
    shows m StepDetails ->
    step p m (withState m (editDetails (CustomerDetails.setEmail v) (state m)))
| step_edit_phone m v :
    shows m StepDetails ->
    step p m (withState m (editDetails (CustomerDetails.setPhone v) (state m)))
| step_edit_password m v :
    shows m StepSignup ->
    step p m (withState m (editDetails (CustomerDetails.setPassword v) (state m)))
| step_next m :
    bookingComplete (state m) = false ->
    currentStep (state m) <> StepConfirm ->
    nextDisabled (state m) = false ->
    step p m (withState m (nextStep (currentUser m) (state m)))
| step_prev m :
    bookingComplete (state m) = false ->
    currentStep (state m) <> StepDate ->
    step p m (withState m (prevStep (currentUser m) (state m)))
| step_toggle_coins m u user :
    shows m StepConfirm ->
    is_Some (selectedDate (state m)) ->
    JS.truthy (selectedTime (state m)) = true ->
    currentUser m = Some u ->
    userData (state m) = Some user ->
    0 < Wallet.coins (User.wallet user) ->
    step p m (withState m (setUseCoins (negb (useCoins (state m))) (state m)))
| step_submit m env :
    shows m StepConfirm ->
    loading (state m) = false ->
    step p m
      {| currentUser :=
           sessionAfterSubmit (currentUser m) env
             (snd (handleSubmit p (currentUser m) env (state m)));
         state := fst (handleSubmit p (currentUser m) env (state m)) |}
| step_user_data_loaded m u user vendorOffers :
    currentUser m = Some u ->
    step p m (withState m (loadUserData (currentUser m) user vendorOffers (state m))).

(** The modal opens in [initialState]; [reachable p m0 m] holds when [m] can
    be reached from [m0]. *)
Inductive reachableFrom (p : Props) (m0 : Modal) : Modal -> Prop :=
| reach_here : reachableFrom p m0 m0
| reach_step m m' : reachableFrom p m0 m -> step p m m' -> reachableFrom p m0 m'.

Definition opened (cu : option AuthUser.t) : Modal :=
  {| currentUser := cu; state := initialState cu |}.

Definition reachable (p : Props) (m : Modal) : Prop :=
  exists cu, reachableFrom p (opened cu) m.

(** ** Regular expressions of the form validation *)

(** The anchored patterns [/^...$/] of the registration form, as regular
    expressions over characters, matched by derivatives. Strings are taken
    over the ASCII range, where [\s] is [JS.isWhiteSpace]. *)
Module Regex.

Inductive t :=
| Never
| Empty
| Class (f : ascii -> bool)
| Seq (r1 r2 : t)
| Alt (r1 r2 : t)
| Star (r : t).

(** One given character. *)
Definition chr (c : ascii) : t := Class (Ascii.eqb c).

(** [r+]. *)
Definition plus (r : t) : t := Seq r (Star r).

(** [r{n}]. *)
Fixpoint times (n : nat) (r : t) : t :=
  match n with
  | O => Empty
  | S n' => Seq r (times n' r)
  end.

(** [r{0,n}]. *)
Fixpoint upTo (n : nat) (r : t) : t :=
  match n with
  | O => Empty
  | S n' => Alt Empty (Seq r (upTo n' r))
  end.

(** [r{m,n}]. *)
Definition between (m n : nat) (r : t) : t := Seq (times m r) (upTo (n - m) r).

(** A literal string. *)
Fixpoint lit (s : string) : t :=
  match s with
  | EmptyString => Empty
  | String c rest => Seq (chr c) (lit rest)
  end.

Fixpoint nullable (r : t) : bool :=
  match r with
  | Never => false
  | Empty => true
  | Class _ => false
  | Seq r1 r2 => nullable r1 && nullable r2
  | Alt r1 r2 => nullable r1 || nullable r2
  | Star _ => true
  end.

Fixpoint deriv (c : ascii) (r : t) : t :=
  match r with
  | Never => Never
  | Empty => Never
  | Class f => if f c then Empty else Never
  | Seq r1 r2 =>
      if nullable r1 then Alt (Seq (deriv c r1) r2) (deriv c r2)
      else Seq (deriv c r1) r2
  | Alt r1 r2 => Alt (deriv c r1) (deriv c r2)
  | Star r1 => Seq (deriv c r1) (Star r1)
  end.

(** [/^r$/.test(s)]. *)
Fixpoint test (r : t) (s : string) : bool :=
  match s with
  | EmptyString => nullable r
  | String c rest => test (deriv c r) rest
  end.


End Regex.

(** Whether some character of [s] is in the class: [/[...]/.test(s)]. *)
Fixpoint someChar (f : ascii -> bool) (s : string) : bool :=
  match s with
  | EmptyString => false
  | String c rest => f c || someChar f rest
  end.

Fixpoint everyChar (f : ascii -> bool) (s : string) : bool :=
  match s with
  | EmptyString => true
  | String c rest => f c && everyChar f rest
  end.


(** [s.replace(/\s/g, '')]. *)
Fixpoint removeWhiteSpace (s : string) : string :=
  match s with
  | EmptyString => EmptyString
  | String c rest =>
      if JS.isWhiteSpace c then removeWhiteSpace rest else String c (removeWhiteSpace rest)
  end.

(** [!s.trim()]: nothing but white space. *)
Definition blank (s : string) : bool := everyChar JS.isWhiteSpace s.

Definition inRange (lo hi : nat) (c : ascii) : bool :=
  (Nat.leb lo (nat_of_ascii c) && Nat.leb (nat_of_ascii c) hi)%bool.

Definition isDigit : ascii -> bool := inRange 48 57.
Definition isUpper : ascii -> bool := inRange 65 90.
Definition isLower : ascii -> bool := inRange 97 122.

(** The class of [hasSpecialChar]: exclamation mark, at sign, hash, dollar,
    percent, caret, ampersand, asterisk, parentheses, comma, full stop,
    question mark, double quote, colon, braces, bar and angle brackets. *)
Definition isSpecial (c : ascii) : bool :=
  existsb (Ascii.eqb c)
    (list_ascii_of_string
       (String "!" (String "@" (String "#" (String "$" (String "%" (String "^"
       (String "&" (String "*" (String "(" (String ")" (String "," (String "."
       (String "?" (String (ascii_of_nat 34) (String ":" (String "{" (String "}"
       (String "|" (String "<" (String ">" EmptyString))))))))))))))))))))).

(** The class [[^\s@]]. *)
Definition notSpaceNorAt (c : ascii) : bool :=
  negb (JS.isWhiteSpace c) && negb (Ascii.eqb c "@").

(** [/^[^\s@]+@[^\s@]+\.[^\s@]+$/]. *)
Definition emailPattern : Regex.t :=
  Regex.Seq (Regex.plus (Regex.Class notSpaceNorAt))
    (Regex.Seq (Regex.chr "@")
       (Regex.Seq (Regex.plus (Regex.Class notSpaceNorAt))
          (Regex.Seq (Regex.chr ".") (Regex.plus (Regex.Class notSpaceNorAt))))).

(** [/^[0-9]{7}-[0-9]$/]. *)
Definition businessIdPattern : Regex.t :=
  Regex.Seq (Regex.times 7 (Regex.Class isDigit))
    (Regex.Seq (Regex.chr "-") (Regex.Class isDigit)).

(** [/^(\+358|0)[0-9]{6,9}$/]. *)
Definition phonePattern : Regex.t :=
  Regex.Seq (Regex.Alt (Regex.lit "+358") (Regex.chr "0"))
    (Regex.between 6 9 (Regex.Class isDigit)).

(** ** Registration page *)

Module Register.

Record Strength := {
  score : Z;
  hasMinLength : bool;
  hasUpperCase : bool;
  hasLowerCase : bool;
  hasNumber : bool;
  hasSpecialChar : bool }.

Record State := {
  email : string;
  password : string;
  confirmPassword : string;
  isVendor : bool;
  businessName : string;
  businessId : string;
  address : string;
  phone : string;
  error : string;
  loading : bool;
  validationErrors : gmap string string;
  passwordStrength : Strength }.

Definition setError v st :=
  {| email := email st; password := password st; confirmPassword := confirmPassword st;
     isVendor := isVendor st; businessName := businessName st; businessId := businessId st;
     address := address st; phone := phone st; error := v; loading := loading st;
     validationErrors := validationErrors st; passwordStrength := passwordStrength st |}.
Definition setLoading v st :=
  {| email := email st; password := password st; confirmPassword := confirmPassword st;
     isVendor := isVendor st; businessName := businessName st; businessId := businessId st;
     address := address st; phone := phone st; error := error st; loading := v;
     validationErrors := validationErrors st; passwordStrength := passwordStrength st |}.
Definition setValidationErrors v st :=
  {| email := email st; password := password st; confirmPassword := confirmPassword st;
     isVendor := isVendor st; businessName := businessName st; businessId := businessId st;
     address := address st; phone := phone st; error := error st; loading := loading st;
     validationErrors := v; passwordStrength := passwordStrength st |}.
Definition setPasswordStrength v st :=
  {| email := email st; password := password st; confirmPassword := confirmPassword st;
     isVendor := isVendor st; businessName := businessName st; businessId := businessId st;
     address := address st; phone := phone st; error := error st; loading := loading st;
     validationErrors := validationErrors st; passwordStrength := v |}.

(** The strength record [checkPasswordStrength] stores. *)
Definition strengthOf (password : string) : Strength :=
  let hasMinLength := Nat.leb 6 (String.length password) in
  let hasUpperCase := someChar isUpper password in
  let hasLowerCase := someChar isLower password in
  let hasNumber := someChar isDigit password in
  let hasSpecialChar := someChar isSpecial password in
  let score := 0 in
  let score := if hasMinLength then score + 1 else score in
  let score := if hasUpperCase then score + 1 else score in
  let score := if hasLowerCase then score + 1 else score in
  let score := if hasNumber then score + 1 else score in
  let score := if hasSpecialChar then score + 1 else score in
  {| score := score; hasMinLength := hasMinLength; hasUpperCase := hasUpperCase;
     hasLowerCase := hasLowerCase; hasNumber := hasNumber;
     hasSpecialChar := hasSpecialChar |}.

Definition checkPasswordStrength (password : string) (st : State) : State :=
  setPasswordStrength (strengthOf password) st.

Definition msgEmailRequired : string := "Sähköposti on pakollinen".
Definition msgEmailInvalid : string := "Virheellinen sähköpostiosoite".
Definition msgPasswordRequired : string := "Salasana on pakollinen".
Definition msgPasswordShort : string := "Salasanan tulee olla vähintään 6 merkkiä".
Definition msgPasswordMismatch : string := "Salasanat eivät täsmää".
Definition msgBusinessNameRequired : string := "Yrityksen nimi on pakollinen".
Definition msgBusinessIdRequired : string := "Y-tunnus on pakollinen".
Definition msgBusinessIdInvalid : string := "Virheellinen Y-tunnus (muoto: 1234567-8)".
Definition msgAddressRequired : string := "Osoite on pakollinen".
Definition msgPhoneRequired : string := "Puhelinnumero on pakollinen".
Definition msgPhoneInvalid : string := "Virheellinen puhelinnumero".
Definition msgRegistrationFailed : string := "Tilin luonti epäonnistui".

(** The [errors] object [validateForm] builds. *)
Definition formErrors (st : State) : gmap string string :=
  let errors : gmap string string := ∅ in
  let errors :=
    if negb (JS.truthy (email st)) then <["email" := msgEmailRequired]> errors
    else if negb (Regex.test emailPattern (email st))
    then <["email" := msgEmailInvalid]> errors
    else errors in
  let errors :=
    if negb (JS.truthy (password st)) then <["password" := msgPasswordRequired]> errors
    else if Nat.ltb (String.length (password st)) 6
    then <["password" := msgPasswordShort]> errors
    else errors in
  let errors :=
    if negb (String.eqb (password st) (confirmPassword st))
    then <["confirmPassword" := msgPasswordMismatch]> errors
    else errors in
  if isVendor st then
    let errors :=
      if blank (businessName st) then <["businessName" := msgBusinessNameRequired]> errors
      else errors in
    let errors :=
      if blank (businessId st) then <["businessId" := msgBusinessIdRequired]> errors
      else if negb (Regex.test businessIdPattern (businessId st))
      then <["businessId" := msgBusinessIdInvalid]> errors
      else errors in
    let errors :=
      if blank (address st) then <["address" := msgAddressRequired]> errors
      else errors in
    let errors :=
      if blank (phone st) then <["phone" := msgPhoneRequired]> errors
      else if negb (Regex.test phonePattern (removeWhiteSpace (phone st)))
      then <["phone" := msgPhoneInvalid]> errors
      else errors in
    errors
  else errors.

(** [validateForm]: stores the errors and tells whether there is none. *)
Definition validateForm (st : State) : State * bool :=
  let errors := formErrors st in
  (setValidationErrors errors st, Nat.eqb (size errors) 0).

(** The vendor document written at registration. *)
Record VendorData := {
  userId : string;
  vendorBusinessName : string;
  vendorBusinessId : string;
  vendorAddress : string;
  vendorPhone : string;
  services : list string;
  vendorOperatingHours : gmap string Hours }.

Definition officeHours : Hours := {| open := "09:00"; close := "17:00" |}.

Definition initialHours : gmap string Hours :=
  <["friday" := officeHours]> (<["thursday" := officeHours]> (<["wednesday" := officeHours]>
    (<["tuesday" := officeHours]> (<["monday" := officeHours]> ∅)))).

Inductive Outcome (A : Type) :=
| Resolved (value : A)
| Rejected (message : string).
Arguments Resolved {A} value.
Arguments Rejected {A} message.

(** The collaborators: [signup(email, password, isVendor)] resolving to the
    new user id, and [createVendor]. *)
Record Env := {
  signup : string -> string -> bool -> Outcome string;
  createVendor : VendorData -> Outcome unit }.

Inductive Call :=
| CallSignup (email password : string) (isVendor : bool)
| CallCreateVendor (data : VendorData)
| CallNavigate (path : string).

(** [err.message || 'Tilin luonti epäonnistui']. *)
Definition messageOr (message : string) : string :=
  if JS.truthy message then message else msgRegistrationFailed.

Definition vendorDataOf (st : State) (uid : string) : VendorData :=
  {| userId := uid;
     vendorBusinessName := businessName st;
     vendorBusinessId := businessId st;
     vendorAddress := address st;
     vendorPhone := phone st;
     services := [];
     vendorOperatingHours := initialHours |}.

Definition handleSubmit (env : Env) (st0 : State) : State * list Call :=
  let '(st, valid) := validateForm st0 in
  if negb valid then (st, [])
  else
    let st := setLoading true (setError "" st) in
    let calls := [CallSignup (email st0) (password st0) (isVendor st0)] in
    match signup env (email st0) (password st0) (isVendor st0) with
    | Resolved uid =>
        if isVendor st0 then
          let data := vendorDataOf st0 uid in
          let calls := (calls ++ [CallCreateVendor data])%list in
          match createVendor env data with
          | Resolved _ =>
              (setLoading false st, (calls ++ [CallNavigate "/vendor-dashboard"])%list)
          | Rejected message =>
              (setLoading false (setError (messageOr message) st), calls)
          end
        else (setLoading false st, (calls ++ [CallNavigate "/customer-dashboard"])%list)
    | Rejected message => (setLoading false (setError (messageOr message) st), calls)
    end.

End Register.

(** The vendor as the booking modal reads it back. *)
Definition registeredVendor (data : Register.VendorData) : Vendor :=
  {| operatingHours := Register.vendorOperatingHours data |}.

(** ** Vendor profile page *)

Module VendorProfile.

Definition getServiceDiscount (offers : list Offer.t) (now : Z) (service : Service.t) : Q :=
  let activeOffer :=
    List.find (fun o =>
      String.eqb (Offer.serviceId o) (Service.id service) &&
      (Offer.startDate o <=? now) && (Offer.endDate o >=? now)) offers in
  match activeOffer with
  | Some o => orZero (Offer.discountPercentage o)
  | None => 0%Q
  end.

Definition getDiscountedPrice (offers : list Offer.t) (now : Z) (service : Service.t) : Q :=
  let discount := getServiceDiscount offers now service in
  if negb (Qle_bool discount 0)
  then (Service.price service * (1 - discount / 100))%Q
  else Service.price service.

(** The price on an offer card: [service.price * (1 - offer.discountPercentage / 100)]
    for the service the offer names, if the vendor has it. *)
Definition offerCardPrice (services : list Service.t) (offer : Offer.t) : option Q :=
  match List.find (fun s => String.eqb (Service.id s) (Offer.serviceId offer)) services with
  | Some service => Some (Service.price service * (1 - Offer.discountPercentage offer / 100))%Q
  | None => None
  end.

(** [vendor.operatingHours[today] || vendor.operatingHours.monday]; [None]
    is [undefined]. *)
Definition todayHours (today : Date) (vendor : Vendor) : option Hours :=
  match operatingHours vendor !! JS.toLowerCase (formatEEEE today) with
  | Some hours => Some hours
  | None => operatingHours vendor !! "monday"
  end.

(** The opening line of the profile; reading [open] of [undefined] throws,
    which is [None]. *)
Definition openingLine (today : Date) (vendor : Vendor) : option string :=
  match todayHours today vendor with
  | Some hours =>
      Some (if String.eqb (open hours) "closed" && String.eqb (close hours) "closed"
            then "Suljettu tänään"
            else if String.eqb (open hours) "00:00" && String.eqb (close hours) "23:59"
            then "Avoinna 24h"
            else "Avoinna tänään: " +:+ open hours +:+ " - " +:+ close hours)
  | None => None
  end.

End VendorProfile.

(** ** Reference notions for the statements *)


(** Without session nothing was fetched and redemption is off. *)
Definition noSessionNothingLoaded (m : Modal) : Prop :=
  currentUser m = None ->
  offers (state m) = [] /\ userData (state m) = None /\ useCoins (state m) = false.

(** A two-digit, zero-padded number and the clock string [HH:MM]. *)
Definition pad2 (n : Z) : string := JS.padStart 2 "0" (JS.toString n).
Definition hhmm (h m : Z) : string := pad2 h +:+ ":" +:+ pad2 m.

(** [clockString s t]: [s] is the wall-clock string [HH:MM], or the bare
    hour [HH], of minute [t] of the day. *)
Inductive clockString : string -> Z -> Prop :=
| clock_hhmm h m : 0 <= h < 24 -> 0 <= m < 60 -> clockString (hhmm h m) (h * 60 + m)
| clock_hh h : 0 <= h < 24 -> clockString (pad2 h) (h * 60).

(** The instants [start, start + 30, start + 60, ...] below [stop], in
    increasing order. *)
Definition halfHourGrid (start stop : Z) : list Z :=
  map (fun k => start + 30 * Z.of_nat k) (seq 0 (Z.to_nat ((stop - start + 29) / 30))).

(** Minutes since midnight as [getAvailableTimes] reads them from an
    [open] or [close] string. *)
Definition parsedMinutes (s : string) : option Z :=
  let pieces := JS.split ":" s in
  minutesOfDay (JS.parseIntOpt (firstPiece pieces)) (JS.parseInt (secondPieceOr "0" pieces)).

(** Reading back every clock string of the day gives its minute: the check
    runs over the 24 bare hours and the 1440 strings [HH:MM]. *)
Definition clockRoundTrip : bool :=
  forallb (fun h =>
    match parsedMinutes (pad2 (Z.of_nat h)) with
    | Some t => t =? Z.of_nat h * 60
    | None => false
    end &&
    forallb (fun m =>
      match parsedMinutes (hhmm (Z.of_nat h) (Z.of_nat m)) with
      | Some t => t =? Z.of_nat h * 60 + Z.of_nat m
      | None => false
      end) (seq 0 60)) (seq 0 24).


(** The grid of a vendor open from 09:00 to 17:00. *)
Definition nineToFive : list string :=
  ["09:00"; "09:30"; "10:00"; "10:30"; "11:00"; "11:30"; "12:00"; "12:30";
   "13:00"; "13:30"; "14:00"; "14:30"; "15:00"; "15:30"; "16:00"; "16:30"].

(** The grid of a vendor open around the clock. *)
Definition aroundTheClock : list string :=
  ["00:00"; "00:30"; "01:00"; "01:30"; "02:00"; "02:30"; "03:00"; "03:30";
   "04:00"; "04:30"; "05:00"; "05:30"; "06:00"; "06:30"; "07:00"; "07:30";
   "08:00"; "08:30"; "09:00"; "09:30"; "10:00"; "10:30"; "11:00"; "11:30";
   "12:00"; "12:30"; "13:00"; "13:30"; "14:00"; "14:30"; "15:00"; "15:30";
   "16:00"; "16:30"; "17:00"; "17:30"; "18:00"; "18:30"; "19:00"; "19:30";
   "20:00"; "20:30"; "21:00"; "21:30"; "22:00"; "22:30"; "23:00"; "23:30"].

(** ** Sample data *)

(** A Thursday, and a vendor open on Thursdays from 08:30 to 12:00. *)
Definition aThursday : Date := {| epochDay := 0 |}.
Definition morningVendor : Vendor :=
  {| operatingHours := {[ "thursday" := {| open := "08:30"; close := "12:00" |} ]} |}.

(** A vendor closed on Thursdays. *)
Definition closedVendor : Vendor :=
  {| operatingHours := {[ "thursday" := {| open := "closed"; close := "closed" |} ]} |}.

(** A vendor open around the clock on Thursdays. *)
Definition alwaysOpenVendor : Vendor :=
  {| operatingHours := {[ "thursday" := {| open := "00:00"; close := "23:59" |} ]} |}.

(** A vendor whose Thursday hours run backwards. *)
Definition backwardsVendor : Vendor :=
  {| operatingHours := {[ "thursday" := {| open := "17:00"; close := "09:00" |} ]} |}.

Definition wash : Service.t :=
  {| Service.id := "wash"; Service.name := "Pesu"; Service.duration := 30;
     Service.price := 100%Q |}.

Definition washProps : Props :=
  {| service := wash; vendorId := "v1"; vendor := morningVendor |}.

(** A half-price offer on [wash], valid over the instants 0 to 10. *)
Definition halfPrice : Offer.t :=
  {| Offer.serviceId := "wash"; Offer.discountPercentage := 50%Q; Offer.active := true;
     Offer.startDate := 0; Offer.endDate := 10 |}.

Definition alice : AuthUser.t := {| AuthUser.uid := "u1"; AuthUser.email := "a@b.fi" |}.

Definition userWithCoins (n : Z) : User.t := {| User.wallet := {| Wallet.coins := n |} |}.

Definition filledDetails (password : string) : CustomerDetails.t :=
  {| CustomerDetails.firstName := "Aino"; CustomerDetails.lastName := "Virtanen";
     CustomerDetails.email := "a@b.fi"; CustomerDetails.phone := "+358401234567";
     CustomerDetails.licensePlate := "ABC-123"; CustomerDetails.password := password |}.

(** A state on [step] with date, time and details chosen. *)
Definition filledState (step : Step) (password : string) (coinsOn : bool)
    (user : option User.t) (vendorOffers : list Offer.t) : State :=
  {| currentStep := step; selectedDate := Some aThursday; selectedTime := "10:00";
     useCoins := coinsOn; loading := false; error := None; showLoginPrompt := false;
     bookingComplete := false; userData := user; offers := vendorOffers;
     customerDetails := filledDetails password |}.

(** Collaborators at instant 5: [signup] gives [outcome], [createAppointment]
    resolves. *)
Definition envWith (outcome : SignupResult) : Env :=
  {| now := 5; signup := fun _ _ => outcome; createAppointment := fun _ _ => true |}.

(** A visitor without session walks from the date step to the confirm step. *)
Definition walk (m : Modal) (f : State -> State) : Modal := withState m (f (state m)).
Definition visitor0 : Modal := opened None.
Definition visitor1 : Modal := walk visitor0 (setSelectedDate (Some aThursday)).
Definition visitor2 : Modal := walk visitor1 (nextStep None).
Definition visitor3 : Modal := walk visitor2 (setSelectedTime "10:00").
Definition visitor4 : Modal := walk visitor3 (nextStep None).
Definition visitor5 : Modal := walk visitor4 (editDetails (CustomerDetails.setFirstName "Aino")).
Definition visitor6 : Modal := walk visitor5 (editDetails (CustomerDetails.setLastName "Virtanen")).
Definition visitor7 : Modal := walk visitor6 (editDetails (CustomerDetails.setEmail "a@b.fi")).
Definition visitor8 : Modal := walk visitor7 (editDetails (CustomerDetails.setPhone "+358401234567")).
Definition visitor9 : Modal :=
  walk visitor8 (editDetails (CustomerDetails.setLicensePlate (JS.toUpperCase "abc-123"))).
Definition visitorAtSignup : Modal := walk visitor9 (nextStep None).
Definition visitorWithPassword : Modal :=
  walk visitorAtSignup (editDetails (CustomerDetails.setPassword "salasana")).
Definition visitorAtConfirm : Modal := walk visitorWithPassword (nextStep None).

(** ** Further notions and sample data *)

(** The keys under which the modal looks hours up. *)
Definition weekdayKeys : list string :=
  ["sunday"; "monday"; "tuesday"; "wednesday"; "thursday"; "friday"; "saturday"].

(** A business registration that passes validation, and its collaborators. *)
Definition vendorForm : Register.State :=
  {| Register.email := "pesu@autopesu.fi"; Register.password := "salasana";
     Register.confirmPassword := "salasana"; Register.isVendor := true;
     Register.businessName := "Autopesu Oy"; Register.businessId := "1234567-8";
     Register.address := "Hämeenkatu 1"; Register.phone := "040 123 4567";
     Register.error := ""; Register.loading := false; Register.validationErrors := ∅;
     Register.passwordStrength := Register.strengthOf "" |}.

Definition registrationEnv (vendorWritten : bool) : Register.Env :=
  {| Register.signup := fun _ _ _ => Register.Resolved "v7";
     Register.createVendor := fun _ =>
       if vendorWritten then Register.Resolved tt else Register.Rejected "" |}.

(** The test [getServiceDiscount] hands to [find]: the offer is for the
    service and its window holds the instant. *)
Definition offerApplies (serviceId : string) (now : Z) (o : Offer.t) : bool :=
  String.eqb (Offer.serviceId o) serviceId &&
  (Offer.startDate o <=? now) && (Offer.endDate o >=? now).


(** Every slot of the day is read back by [appointmentDateTime] as its own
    hour and minute. *)
Definition slotsReadBack : bool :=
  forallb (fun t =>
    match hours (appointmentDateTime {| epochDay := 0 |} (formatSlot (Z.of_nat t))),
          minutes (appointmentDateTime {| epochDay := 0 |} (formatSlot (Z.of_nat t))) with
    | Some h, Some m => (h =? Z.of_nat t / 60) && (m =? Z.of_nat t mod 60)
    | _, _ => false
    end) (seq 0 1440).


(** Position of a step in the forward order. *)
Definition stepRank (s : Step) : nat :=
  match s with
  | StepDate => 0
  | StepTime => 1
  | StepDetails => 2
  | StepSignup => 3
  | StepConfirm => 4
  end.

(** What the steps passed so far have collected. *)
Definition selectionsInPlace (m : Modal) : Prop :=
  (1 <= stepRank (currentStep (state m)) -> isSome (selectedDate (state m)) = true)%nat
  /\ (2 <= stepRank (currentStep (state m)) -> JS.truthy (selectedTime (state m)) = true)%nat
  /\ (3 <= stepRank (currentStep (state m)) ->
      CustomerDetails.complete (customerDetails (state m)) = true)%nat
  /\ (currentStep (state m) = StepConfirm ->
      isSome (currentUser m) = true
      \/ JS.truthy (CustomerDetails.password (customerDetails (state m))) = true).

(** The error shown, if any, is a message with text. *)
Definition errorHasText (m : Modal) : Prop :=
  forall e, error (state m) = Some e -> JS.truthy e = true.

(** The modal of [cu] on [step] with [date] and [time] chosen and nothing
    else touched. *)
Definition chosen (cu : option AuthUser.t) (step : Step) (date : option Date)
    (time : string) : Modal :=
  {| currentUser := cu;
     state := setCurrentStep step (setSelectedTime time (setSelectedDate date (initialState cu))) |}.

(** The day after [aThursday]. *)
Definition aFriday : Date := {| epochDay := 1 |}.

(** The visitor after a sign-up that met an address already registered,
    and after a second try that failed for another reason. *)
Definition conflictEnv : Env := envWith (SignupFailed "auth/email-already-in-use").
Definition outageEnv : Env := envWith (SignupFailed "auth/network-request-failed").
Definition visitorAfterConflict : Modal :=
  {| currentUser := None;
     state := fst (handleSubmit washProps None conflictEnv (state visitorAtConfirm)) |}.
Definition visitorAfterOutage : Modal :=
  {| currentUser := None;
     state := fst (handleSubmit washProps None outageEnv (state visitorAfterConflict)) |}.

(** A signed-in customer whose modal has loaded the half-price offer. *)
Definition aliceLoaded : Modal :=
  withState (opened (Some alice))
    (loadUserData (Some alice) (Some (userWithCoins 200)) [halfPrice]
       (initialState (Some alice))).


(** A vendor closed on Mondays, with no hours for the other days. *)
Definition mondayClosedVendor : Vendor :=
  {| operatingHours := {[ "monday" := {| open := "closed"; close := "closed" |} ]} |}.

(** ** The price computation in binary64 *)

(** A JS number is an IEEE 754 binary64 value. Its [+], [-], [*], [/] and
    comparisons are the primitive operations of [PrimFloat], which round to
    nearest, ties to even, as the JS operators do; [Math.floor], [Math.min]
    and [Math.max] are written out below. *)
Module Double.

(** The number that holds the integer [n]: exact up to 2^53 in magnitude,
    rounded to nearest beyond. *)
Definition ofZ (n : Z) : float := SF2Prim (binary_normalize prec emax n 0 false).

(** [Math.floor]: a number without fractional part, a zero, an infinity
    and NaN are returned as they are; otherwise the mantissa is cut at the
    binary point, and a negative number is moved one further down. *)
Definition floor (x : float) : float :=
  match Prim2SF x with
  | S754_finite s m e =>
      if 0 <=? e then x
      else
        let q := Z.shiftr (Zpos m) (- e) in
        if Z.shiftl q (- e) =? Zpos m then x
        else if s then ofZ (- (q + 1)) else ofZ q
  | _ => x
  end.

(** [Math.min] and [Math.max]: NaN if either argument is, and [-0] counts
    as smaller than [+0]. *)
Definition min (a b : float) : float :=
  if is_nan a || is_nan b then nan
  else if (a <? b)%float then a
  else if (b <? a)%float then b
  else if get_sign a then a else b.

Definition max (a b : float) : float :=
  if is_nan a || is_nan b then nan
  else if (a <? b)%float then b
  else if (b <? a)%float then a
  else if get_sign a then b else a.

End Double.

(** The two price expressions of the modal over binary64, as functions of
    the numbers they read: [service.price], the discount returned by
    [getServiceDiscount()] and the coin count of the wallet, if the user
    data is loaded. *)
Module Binary64.

(** [getDiscountedPrice]. *)
Definition getDiscountedPrice (price discount : float) : float :=
  if (0 <? discount)%float then (price * (1 - discount / 100))%float else price.

(** [userData?.wallet.coins || 0]. *)
Definition walletCoins (coins : option Z) : float :=
  match coins with
  | Some n => Double.ofZ n
  | None => 0%float
  end.

(** [Math.min(userData?.wallet.coins || 0, Math.floor(getDiscountedPrice() / 0.5))]. *)
Definition coinsApplied (price discount : float) (coins : option Z) : float :=
  Double.min (walletCoins coins)
    (Double.floor (getDiscountedPrice price discount / 0.5)%float).

(** The [totalPrice] field of [appointmentData]. *)
Definition totalPrice (useCoins : bool) (price discount : float) (coins : option Z) : float :=
  if useCoins
  then Double.max 0 (getDiscountedPrice price discount
                     - coinsApplied price discount coins * 0.5)%float
  else getDiscountedPrice price discount.

End Binary64.



(** ** Runs with the calendar and a pending sign-up *)

(** The strings of the ASCII range: there a byte is a character,
    [String.length] is the [length] of JS and [JS.isWhiteSpace] is all of
    [\s]. *)
Definition isAscii (c : ascii) : bool := Nat.ltb (nat_of_ascii c) 128.
Definition asciiOnly (s : string) : bool := everyChar isAscii s.

(** The month a day lies in, counted from January 1970: what [isSameMonth]
    compares and what [addMonths] and [subMonths] shift by one. *)
Definition monthIndex (d : Date) : Z :=
  let z := epochDay d + 719468 in
  let era := z / 146097 in
  let doe := z - era * 146097 in
  let yoe := (doe - doe / 1460 + doe / 36524 - doe / 146096) / 365 in
  let doy := doe - (365 * yoe + yoe / 4 - yoe / 100) in
  let mp := (5 * doy + 2) / 153 in
  let month := if mp <? 10 then mp + 3 else mp - 9 in
  let year := yoe + era * 400 + (if month <=? 2 then 1 else 0) in
  (year - 1970) * 12 + (month - 1).

(** What the date step reads besides the component state: [startOfToday()]
    and the month of a day. *)
Record Calendar := { today : Date; monthOf : Date -> Z }.

(** [handleSubmit] suspended at [await signup(...)]: the state of the
    render that created the handler and the date it read. *)
Record Pending := { renderState : State; pendingDate : Date }.

(** The modal with the month on display ([currentMonth], as a month count)
    and the handler waiting for [signup], if any. *)
Record Live := { modal : Modal; currentMonth : Z; awaiting : option Pending }.

Definition withModal (l : Live) (m : Modal) : Live :=
  {| modal := m; currentMonth := currentMonth l; awaiting := awaiting l |}.

Definition withMonth (l : Live) (k : Z) : Live :=
  {| modal := modal l; currentMonth := k; awaiting := awaiting l |}.

(** A setter run on the state of the modal. *)
Definition act (l : Live) (f : State -> State) : Live :=
  withModal l (withState (modal l) (f (state (modal l)))).

(** [handleSubmit] from the click to [await signup(...)], for a visitor
    who gave a password: both validations pass, [loading] goes on, the error
    is cleared and the handler is suspended. *)
Definition submitUntilSignup (m : Modal) : option (State * Pending) :=
  match currentUser m, selectedDate (state m) with
  | None, Some selected =>
      if JS.truthy (selectedTime (state m))
         && CustomerDetails.complete (customerDetails (state m))
         && JS.truthy (CustomerDetails.password (customerDetails (state m)))
      then Some (setError None (setLoading true (state m)),
                 {| renderState := state m; pendingDate := selected |})
      else None
  | _, _ => None
  end.

(** [handleSubmit] from the settled [signup] to the end of [finally]: the
    handler still reads the state of its own render, and its setters write
    to the state [st] the component has by then. *)
Definition submitAfterSignup (p : Props) (env : Env) (pending : Pending) (st : State)
    : State :=
  let st0 := renderState pending in
  let email := CustomerDetails.email (customerDetails st0) in
  let password := CustomerDetails.password (customerDetails st0) in
  let '(completion, st1, _) :=
    match signup env email password with
    | SignupOk uid =>
        submitResolved p env st0 st (pendingDate pending) (Some uid)
          [CallSignup email password]
    | SignupFailed code =>
        if String.eqb code "auth/email-already-in-use"
        then (Returned, setError (Some msgEmailInUse) (setShowLoginPrompt true st),
              [CallSignup email password])
        else (Threw, st, [CallSignup email password])
    end in
  let st2 :=
    match completion with
    | Threw => setError (Some msgBookingFailed) st1
    | _ => st1
    end in
  setLoading false st2.

(** The session once the [signup] of [pending] has settled. *)
Definition sessionAfterSignup (cu : option AuthUser.t) (env : Env) (pending : Pending)
    : option AuthUser.t :=
  sessionAfterSubmit cu env
    [CallSignup (CustomerDetails.email (customerDetails (renderState pending)))
       (CustomerDetails.password (customerDetails (renderState pending)))].

(** The inputs of the details step. *)
Inductive DetailsField := FirstName | LastName | Email | Phone | LicensePlate.

(** The [onChange] handler of each input. *)
Definition typeInto (field : DetailsField) (v : string)
    : CustomerDetails.t -> CustomerDetails.t :=
  match field with
  | FirstName => CustomerDetails.setFirstName v
  | LastName => CustomerDetails.setLastName v
  | Email => CustomerDetails.setEmail v
  | Phone => CustomerDetails.setPhone v
  | LicensePlate => CustomerDetails.setLicensePlate (JS.toUpperCase v)
  end.

(** The moves of a customer who pages the calendar, picks a day and a
    time, types ASCII text, walks back and forth and submits as a visitor;
    every rule carries the guard under which the control is rendered and
    enabled. The back button and the inputs stay enabled while [signup] is
    awaited. *)
Inductive liveStep (p : Props) (cal : Calendar) : Live -> Live -> Prop :=
| live_prev_month l :
    shows (modal l) StepDate ->
    liveStep p cal l (withMonth l (currentMonth l - 1))
| live_next_month l :
    shows (modal l) StepDate ->
    liveStep p cal l (withMonth l (currentMonth l + 1))
| live_pick_date l d :
    shows (modal l) StepDate ->
    epochDay (today cal) <= epochDay d ->
    monthOf cal d = currentMonth l ->
    liveStep p cal l (act l (setSelectedDate (Some d)))
| live_pick_time l t :
    shows (modal l) StepTime ->
    In t (getAvailableTimes (selectedDate (state (modal l))) (vendor p)) ->
    liveStep p cal l (act l (setSelectedTime t))
| live_type l field v :
    shows (modal l) StepDetails ->
    asciiOnly v = true ->
    liveStep p cal l (act l (editDetails (typeInto field v)))
| live_type_password l v :
    shows (modal l) StepSignup ->
    asciiOnly v = true ->
    liveStep p cal l (act l (editDetails (CustomerDetails.setPassword v)))
| live_next l :
    bookingComplete (state (modal l)) = false ->
    currentStep (state (modal l)) <> StepConfirm ->
    nextDisabled (state (modal l)) = false ->
    liveStep p cal l (act l (nextStep (currentUser (modal l))))
| live_prev l :
    bookingComplete (state (modal l)) = false ->
    currentStep (state (modal l)) <> StepDate ->
    liveStep p cal l (act l (prevStep (currentUser (modal l))))
| live_submit_awaits l st pending :
    shows (modal l) StepConfirm ->
    loading (state (modal l)) = false ->
    submitUntilSignup (modal l) = Some (st, pending) ->
    liveStep p cal l
      {| modal := withState (modal l) st; currentMonth := currentMonth l;
         awaiting := Some pending |}
| live_signup_settles l pending env :
    awaiting l = Some pending ->
    liveStep p cal l
      {| modal :=
           {| currentUser := sessionAfterSignup (currentUser (modal l)) env pending;
              state := submitAfterSignup p env pending (state (modal l)) |};
         currentMonth := currentMonth l;
         awaiting := None |}.

(** The modal opens on the month of today with no handler waiting. *)
Definition openedLive (cal : Calendar) (cu : option AuthUser.t) : Live :=
  {| modal := opened cu; currentMonth := monthOf cal (today cal); awaiting := None |}.

Inductive liveReachable (p : Props) (cal : Calendar) (cu : option AuthUser.t)
    : Live -> Prop :=
| live_opened : liveReachable p cal cu (openedLive cal cu)
| live_then l l' :
    liveReachable p cal cu l -> liveStep p cal l l' -> liveReachable p cal cu l'.

(** ** Sample runs and forms *)


(** The instants the specification words: every multiple of 30 minutes [t]
    with [start <= t < stop], in increasing order. *)
Definition halfHourBoundaries (start stop : Z) : list Z :=
  List.filter (fun t => t mod 30 =? 0)
    (map (fun k => start + Z.of_nat k) (seq 0 (Z.to_nat (stop - start)))).

(** The calendar on 1970-01-01. *)
Definition newYearCalendar : Calendar := {| today := aThursday; monthOf := monthIndex |}.



(** The modal of [chosen] with month [k] on display and no handler
    waiting. *)
Definition chosenLive (cu : option AuthUser.t) (step : Step) (date : option Date)
    (time : string) (k : Z) : Live :=
  {| modal := chosen cu step date time; currentMonth := k; awaiting := None |}.




(** * Availability *)

Section Availability.

Lemma halfHourGrid_nil start stop : stop <= start -> halfHourGrid start stop = [].
Proof.
  intros Hle. unfold halfHourGrid.
  assert ((stop - start + 29) / 30 <= 0) as Hq.
  { apply Z.lt_succ_r. apply Z.div_lt_upper_bound; lia. }
  replace (Z.to_nat ((stop - start + 29) / 30)) with O by lia.
  reflexivity.
Qed.

Lemma halfHourGrid_cons start stop :
  start < stop -> halfHourGrid start stop = start :: halfHourGrid (start + 30) stop.
Proof.
  intros Hlt. unfold halfHourGrid.
  replace (stop - start + 29) with ((stop - (start + 30) + 29) + 1 * 30) by lia.
  rewrite Z.div_add by lia.
  assert (0 <= (stop - (start + 30) + 29) / 30) as Hq.
  { apply Z.div_pos; lia. }
  rewrite Z2Nat.inj_add by lia.
  rewrite Nat.add_comm. change (Z.to_nat 1) with 1%nat. cbn [Nat.add seq map].
  f_equal; [lia |].
  rewrite <- seq_shift, List.map_map.
  apply List.map_ext. intros k. lia.
Qed.

Lemma slotLoop_grid fuel : forall time endTime times,
  (Z.to_nat (endTime - time) <= fuel)%nat ->
  slotLoop fuel time endTime times = (times ++ map formatSlot (halfHourGrid time endTime))%list.
Proof.
  induction fuel as [|fuel IH]; intros time endTime times Hfuel; cbn [slotLoop].
  - rewrite halfHourGrid_nil by lia. cbn. now rewrite app_nil_r.
  - destruct (Z.ltb_spec time endTime) as [Hlt|Hge].
    + rewrite IH by lia. rewrite (halfHourGrid_cons time endTime Hlt).
      cbn [map]. now rewrite <- app_assoc.
    + rewrite halfHourGrid_nil by lia. cbn. now rewrite app_nil_r.
Qed.

Lemma halfHourGrid_In start stop t :
  In t (halfHourGrid start stop) <-> start <= t < stop /\ (t - start) mod 30 = 0.
Proof.
  unfold halfHourGrid. rewrite in_map_iff. split.
  - intros (k & <- & Hk). apply in_seq in Hk.
    assert (Z.of_nat k < (stop - start + 29) / 30) as Hlt by lia.
    pose proof (Z.mul_div_le (stop - start + 29) 30 ltac:(lia)) as Hdiv.
    split; [lia |].
    replace (start + 30 * Z.of_nat k - start) with (Z.of_nat k * 30) by lia.
    apply Z.mod_mul; lia.
  - intros ([Hlo Hhi] & Hmod).
    exists (Z.to_nat ((t - start) / 30)).
    pose proof (Z.div_mod (t - start) 30 ltac:(lia)) as Hdm.
    assert (0 <= (t - start) / 30) by (apply Z.div_pos; lia).
    split; [lia |]. apply in_seq. split; [lia |].
    assert ((t - start) / 30 + 1 <= (stop - start + 29) / 30) as Hq.
    { apply Z.div_le_lower_bound; lia. }
    lia.
Qed.

Lemma clockRoundTrip_ok : clockRoundTrip = true.
Proof. vm_compute. reflexivity. Qed.


(** Reading back a clock string gives its minute of the day. *)
Lemma parsedMinutes_clock s t : clockString s t -> parsedMinutes s = Some t.
Proof.
  pose proof clockRoundTrip_ok as Hall. unfold clockRoundTrip in Hall.
  rewrite forallb_forall in Hall.
  intros [h m Hh Hm | h Hh].
  - specialize (Hall (Z.to_nat h)).
    rewrite in_seq, andb_true_iff, forallb_forall in Hall.
    destruct Hall as [_ Hall]; [lia |].
    specialize (Hall (Z.to_nat m)). rewrite in_seq in Hall.
    rewrite !Z2Nat.id in Hall by lia.
    destruct (parsedMinutes (hhmm h m)) as [t'|]; [| discriminate Hall; lia].
    f_equal. apply Z.eqb_eq. apply Hall. lia.
  - specialize (Hall (Z.to_nat h)).
    rewrite in_seq, andb_true_iff in Hall.
    destruct Hall as [Hall _]; [lia |].
    rewrite !Z2Nat.id in Hall by lia.
    destruct (parsedMinutes (pad2 h)) as [t'|]; [| discriminate Hall].
    f_equal. now apply Z.eqb_eq.
Qed.


(** [getAvailableTimes] with its two parses named. *)
Lemma getAvailableTimes_parsed date vendor :
  getAvailableTimes (Some date) vendor =
  let hours := getDayOperatingHours date vendor in
  if isClosed hours then []
  else if isFullDay hours then map fullDaySlot (seq 0 48)
  else match parsedMinutes (open hours), parsedMinutes (close hours) with
       | Some startTime, Some endTime =>
           slotLoop (Z.to_nat (endTime - startTime)) startTime endTime []
       | _, _ => []
       end.
Proof. reflexivity. Qed.

Lemma isClosed_true hours :
  isClosed hours = true <-> open hours = "closed" /\ close hours = "closed".
Proof. unfold isClosed. now rewrite andb_true_iff, !String.eqb_eq. Qed.

Lemma isFullDay_true hours :
  isFullDay hours = true <-> open hours = "00:00" /\ close hours = "23:59".
Proof. unfold isFullDay. now rewrite andb_true_iff, !String.eqb_eq. Qed.

Lemma fullDay_grid :
  map fullDaySlot (seq 0 48) = aroundTheClock /\
  map formatSlot (halfHourGrid 0 1439) = aroundTheClock.
Proof. split; vm_compute; reflexivity. Qed.

(** The slot list of a day whose hours are two clock strings. *)
Lemma getAvailableTimes_grid date vendor o c :
  clockString (open (getDayOperatingHours date vendor)) o ->
  clockString (close (getDayOperatingHours date vendor)) c ->
  getAvailableTimes (Some date) vendor = map formatSlot (halfHourGrid o c).
Proof.
  intros Ho Hc. rewrite getAvailableTimes_parsed. cbv zeta.
  apply parsedMinutes_clock in Ho, Hc.
  destruct (isClosed (getDayOperatingHours date vendor)) eqn:Hclosed.
  { apply isClosed_true in Hclosed as [Hopen _].
    rewrite Hopen in Ho. vm_compute in Ho. discriminate Ho. }
  destruct (isFullDay (getDayOperatingHours date vendor)) eqn:Hfull.
  { apply isFullDay_true in Hfull as [Hopen Hclose].
    rewrite Hopen in Ho. rewrite Hclose in Hc.
    vm_compute in Ho, Hc. injection Ho as <-. injection Hc as <-.
    destruct fullDay_grid as [-> ->]. reflexivity. }
  rewrite Ho, Hc. rewrite slotLoop_grid by lia. reflexivity.
Qed.

Lemma default_hours date vendor :
  operatingHours vendor !! JS.toLowerCase (formatEEEE date) = None ->
  getDayOperatingHours date vendor = {| open := "09:00"; close := "17:00" |}.
Proof. intros Hnone. unfold getDayOperatingHours. now rewrite Hnone. Qed.

Lemma nineToFive_slots date vendor :
  getDayOperatingHours date vendor = {| open := "09:00"; close := "17:00" |} ->
  getAvailableTimes (Some date) vendor = nineToFive.
Proof.
  intros Hhours.
  rewrite (getAvailableTimes_grid date vendor (9 * 60 + 0) (17 * 60 + 0)).
  - vm_compute. reflexivity.
  - rewrite Hhours. exact (clock_hhmm 9 0 ltac:(lia) ltac:(lia)).
  - rewrite Hhours. exact (clock_hhmm 17 0 ltac:(lia) ltac:(lia)).
Qed.



(** The instants of [halfHourBoundaries] are the multiples of 30 between
    the two bounds. *)
Lemma halfHourBoundaries_In start stop t :
  In t (halfHourBoundaries start stop) <-> start <= t < stop /\ t mod 30 = 0.
Proof.
  unfold halfHourBoundaries. rewrite filter_In, in_map_iff, Z.eqb_eq.
  split.
  - intros [(k & <- & Hk) Hmod]. apply in_seq in Hk. split; [lia | exact Hmod].
  - intros [Hrange Hmod]. split; [| exact Hmod].
    exists (Z.to_nat (t - start)). split; [lia |]. apply in_seq. lia.
Qed.


(** C5. On a date whose hours are the closed sentinel the slot list is
    empty and the date is not available; a date is available exactly when
    its hours are not the closed sentinel, a test on the two strings alone
    that never builds the slot list. *)
Theorem closed_day_has_no_slots date vendor :
  (open (getDayOperatingHours date vendor) = "closed" /\
   close (getDayOperatingHours date vendor) = "closed" ->
   getAvailableTimes (Some date) vendor = [] /\ hasAvailableTimes date vendor = false)
  /\ (hasAvailableTimes date vendor = true <->
      ~ (open (getDayOperatingHours date vendor) = "closed" /\
         close (getDayOperatingHours date vendor) = "closed"))
  /\ hasAvailableTimes date vendor =
     negb (String.eqb (open (getDayOperatingHours date vendor)) "closed" &&
           String.eqb (close (getDayOperatingHours date vendor)) "closed").
Proof.
  split; [| split; [| reflexivity]].
  - intros Hclosed. apply isClosed_true in Hclosed.
    rewrite getAvailableTimes_parsed. unfold hasAvailableTimes. cbv zeta.
    now rewrite Hclosed.
  - unfold hasAvailableTimes. rewrite <- isClosed_true.
    destruct (isClosed (getDayOperatingHours date vendor)); cbn; split; congruence.
Qed.

Lemma closed_day_has_no_slots_witness :
  getAvailableTimes (Some aThursday) closedVendor = []
  /\ hasAvailableTimes aThursday closedVendor = false.
Proof.
  apply (proj1 (closed_day_has_no_slots aThursday closedVendor)).
  split; vm_compute; reflexivity.
Defined.

(** Availability is not emptiness of the slot list: hours that are not
    the sentinel mark the date available even when they yield no slot. *)
Example available_without_slots :
  hasAvailableTimes aThursday backwardsVendor = true
  /\ getAvailableTimes (Some aThursday) backwardsVendor = [].
Proof. split; vm_compute; reflexivity. Qed.

(** C6. On a date whose hours are exactly 00:00 to 23:59 the slot list is
    the 48 entries 00:00, 00:30, ..., 23:30: entry [k] renders minute
    [30 * k] of the day. *)
Theorem full_day_has_48_slots date vendor :
  open (getDayOperatingHours date vendor) = "00:00" ->
  close (getDayOperatingHours date vendor) = "23:59" ->
  getAvailableTimes (Some date) vendor = aroundTheClock
  /\ length (getAvailableTimes (Some date) vendor) = 48%nat
  /\ getAvailableTimes (Some date) vendor =
     map (fun k => formatSlot (30 * Z.of_nat k)) (seq 0 48)
  /\ (forall k, (k < 48)%nat ->
      nth_error (getAvailableTimes (Some date) vendor) k =
      Some (hhmm (Z.of_nat k / 2) (30 * (Z.of_nat k mod 2)))).
Proof.
  intros Hopen Hclose.
  assert (getAvailableTimes (Some date) vendor = aroundTheClock) as Hslots.
  { rewrite getAvailableTimes_parsed. cbv zeta.
    assert (isClosed (getDayOperatingHours date vendor) = false) as ->.
    { unfold isClosed. now rewrite Hopen. }
    assert (isFullDay (getDayOperatingHours date vendor) = true) as ->.
    { apply isFullDay_true. now split. }
    apply fullDay_grid. }
  rewrite Hslots.
  split; [reflexivity |]. split; [reflexivity |].
  split; [vm_compute; reflexivity |].
  intros k Hk.
  do 48 (destruct k as [|k]; [vm_compute; reflexivity |]). lia.
Qed.

Lemma full_day_has_48_slots_witness :
  open (getDayOperatingHours aThursday alwaysOpenVendor) = "00:00"
  /\ close (getDayOperatingHours aThursday alwaysOpenVendor) = "23:59"
  /\ length (getAvailableTimes (Some aThursday) alwaysOpenVendor) = 48%nat.
Proof.
  assert (open (getDayOperatingHours aThursday alwaysOpenVendor) = "00:00")
    as Ho by (vm_compute; reflexivity).
  assert (close (getDayOperatingHours aThursday alwaysOpenVendor) = "23:59")
    as Hc by (vm_compute; reflexivity).
  split; [exact Ho |]. split; [exact Hc |].
  exact (proj1 (proj2 (full_day_has_48_slots aThursday alwaysOpenVendor Ho Hc))).
Defined.

End Availability.

(** * Pricing *)

Section Pricing.

Local Open Scope Q_scope.

Variables (p : Props) (instant : Z) (st : State).



End Pricing.

(** With no discount in force the debit and the price reduction use the
    same coin count. *)
Lemma debit_matches_without_discount p instant st :
  getServiceDiscount p instant st = 0%Q ->
  useCoins st = true ->
  coinsToDebit p st = coinsAppliedToPrice p instant st.
Proof.
  intros Hd Hon. unfold coinsToDebit, coinsAppliedToPrice, getDiscountedPrice.
  now rewrite Hon, Hd.
Qed.

(** C1, evaluated. A signed-in customer with 200 coins books the service
    priced 100 under the half-price offer, redemption enabled: the total is
    reduced by 100 coins (from 50 to 0) while [createAppointment] is told to
    debit 200 coins, the count taken against the undiscounted price. *)
Theorem debit_recomputed_from_base_price :
  let st := filledState StepConfirm "" true (Some (userWithCoins 200)) [halfPrice] in
  let env := envWith (SignupOk "u1") in
  let data := appointmentData washProps env st "u1" aThursday in
  (getDiscountedPrice washProps 5 st == 50)%Q
  /\ coinsAppliedToPrice washProps 5 st = 100
  /\ (Appointment.totalPrice data == 0)%Q
  /\ snd (handleSubmit washProps (Some alice) env st) =
     [CallCreateAppointment data 200; CallSetTimeout 3000]
  /\ coinsToDebit washProps st <> coinsAppliedToPrice washProps 5 st.
Proof.
  cbv zeta. repeat split; try (vm_compute; reflexivity).
  vm_compute. discriminate.
Qed.

(** * The final price in binary64 *)

Section DoublePricing.



















Local Open Scope float_scope.











End DoublePricing.


(** * Submission *)

Section Submission.

Variables (p : Props) (env : Env).

(** [handleSubmit] writes only [loading], [error], [showLoginPrompt] and
    [bookingComplete]. *)
Lemma handleSubmit_frame cu st :
  let st' := fst (handleSubmit p cu env st) in
  currentStep st' = currentStep st
  /\ selectedDate st' = selectedDate st
  /\ selectedTime st' = selectedTime st
  /\ useCoins st' = useCoins st
  /\ userData st' = userData st
  /\ offers st' = offers st
  /\ customerDetails st' = customerDetails st.
Proof.
  unfold handleSubmit, submitTry, submitResolved. cbv zeta.
  destruct (selectedDate st) as [selected|] eqn:Hdate; [| cbn; now rewrite Hdate].
  destruct (JS.truthy (selectedTime st)); [| cbn; now rewrite Hdate].
  destruct (CustomerDetails.complete (customerDetails st)); [| cbn; now rewrite Hdate].
  cbn [negb].
  repeat match goal with
  | |- context [match ?x with _ => _ end] =>
      lazymatch x with
      | context [match _ with _ => _ end] => fail
      | _ => destruct x eqn:?
      end
  end; cbn; now rewrite Hdate.
Qed.

(** Every appointment [handleSubmit] creates carries [appointmentData] and
    the debit [coinsToDebit] of the state submitted. *)
Lemma handleSubmit_created cu st data coins :
  In (CallCreateAppointment data coins) (snd (handleSubmit p cu env st)) ->
  exists uid selected,
    data = appointmentData p env st uid selected /\ coins = coinsToDebit p st.
Proof.
  unfold handleSubmit, submitTry, submitResolved. cbv zeta.
  repeat match goal with
  | |- context [match ?x with _ => _ end] =>
      lazymatch x with
      | context [match _ with _ => _ end] => fail
      | _ => destruct x eqn:?
      end
  end; cbn; intros Hin;
  repeat (destruct Hin as [Hin | Hin]; [try discriminate Hin |]); try contradiction;
  injection Hin as <- <-; eauto.
Qed.

(** C8. A submission without session that signs up with an address
    already registered stops there: the conflict message is reported, the
    login action is on screen, [createAppointment] is not called, and
    step, selections and details are as before, ready for another try.
    Any other [signup] failure reports the generic retry message, again
    without creating an appointment. *)
Theorem email_conflict_is_recoverable st selected :
  selectedDate st = Some selected ->
  JS.truthy (selectedTime st) = true ->
  CustomerDetails.complete (customerDetails st) = true ->
  JS.truthy (CustomerDetails.password (customerDetails st)) = true ->
  let email := CustomerDetails.email (customerDetails st) in
  let password := CustomerDetails.password (customerDetails st) in
  let st' := fst (handleSubmit p None env st) in
  let calls := snd (handleSubmit p None env st) in
  (signup env email password = SignupFailed "auth/email-already-in-use" ->
   error st' = Some msgEmailInUse
   /\ showLoginPrompt st' = true
   /\ loginActionShown st' = true
   /\ calls = [CallSignup email password]
   /\ createsAppointment calls = false
   /\ bookingComplete st' = bookingComplete st
   /\ loading st' = false
   /\ currentStep st' = currentStep st
   /\ selectedDate st' = selectedDate st
   /\ selectedTime st' = selectedTime st
   /\ customerDetails st' = customerDetails st)
  /\ (forall code,
      code <> "auth/email-already-in-use" ->
      signup env email password = SignupFailed code ->
      error st' = Some msgBookingFailed
      /\ calls = [CallSignup email password]
      /\ createsAppointment calls = false
      /\ showLoginPrompt st' = showLoginPrompt st
      /\ bookingComplete st' = bookingComplete st).
Proof.
  intros Hdate Htime Hdetails Hpassword email password st' calls.
  subst st' calls email password.
  unfold handleSubmit, submitTry. rewrite Hdate, Htime, Hdetails, Hpassword.
  cbn [negb]. split.
  - intros ->. cbn. rewrite Hdate. repeat split; reflexivity.
  - intros code Hcode ->.
    apply String.eqb_neq in Hcode. rewrite Hcode. cbn. repeat split; reflexivity.
Qed.

(** C9. With redemption enabled, a submission by a signed-in customer that
    got past the date, time and details checks is rejected for lack of
    coins exactly when there is no wallet data or the wallet is empty: the
    toggle is compared as the number 1 with the balance. A wallet of at
    least one coin passes, and [createAppointment] is called with the
    debit of the redemption formula, whatever its size. *)
Theorem coin_check_rejects_only_empty_wallet u st selected :
  selectedDate st = Some selected ->
  JS.truthy (selectedTime st) = true ->
  CustomerDetails.complete (customerDetails st) = true ->
  JS.truthy (AuthUser.uid u) = true ->
  useCoins st = true ->
  (forall user, userData st = Some user -> 0 <= Wallet.coins (User.wallet user)) ->
  let st' := fst (handleSubmit p (Some u) env st) in
  let calls := snd (handleSubmit p (Some u) env st) in
  (error st' = Some msgNotEnoughCoins /\ createsAppointment calls = false <->
   userData st = None \/
   exists user, userData st = Some user /\ Wallet.coins (User.wallet user) = 0)
  /\ (insufficientCoins st =
      match userData st with
      | Some user => Wallet.coins (User.wallet user) <? 1
      | None => true
      end)
  /\ (forall user,
      userData st = Some user ->
      1 <= Wallet.coins (User.wallet user) ->
      error st' <> Some msgNotEnoughCoins
      /\ In (CallCreateAppointment
               (appointmentData p env st (AuthUser.uid u) selected) (coinsToDebit p st))
            calls).
Proof.
  intros Hdate Htime Hdetails Huid Hon Hwallet st' calls. subst st' calls.
  assert (insufficientCoins st =
          match userData st with
          | Some user => Wallet.coins (User.wallet user) <? 1
          | None => true
          end) as Hcheck.
  { unfold insufficientCoins. rewrite Hon. reflexivity. }
  unfold handleSubmit, submitTry, submitResolved.
  rewrite Hdate, Htime, Hdetails. cbn [negb fmap option_fmap option_map].
  rewrite Huid. cbn [negb]. rewrite Hcheck.
  split; [| split; [reflexivity |]].
  - destruct (userData st) as [user|] eqn:Hdata.
    + specialize (Hwallet user eq_refl).
      destruct (Z.ltb_spec (Wallet.coins (User.wallet user)) 1) as [Hlt | Hge].
      * cbn. split; [intros _; right; exists user; split; [reflexivity | lia] |].
        intros _. split; reflexivity.
      * split.
        -- destruct (createAppointment env _ _); cbn; intros [Herr _]; discriminate Herr.
        -- intros [Hnone | (user' & Heq & Hzero)]; [discriminate Hnone |].
           injection Heq as <-. lia.
    + cbn. split; [intros _; now left | intros _; split; reflexivity].
  - intros user Hdata Hge. rewrite Hdata.
    destruct (Z.ltb_spec (Wallet.coins (User.wallet user)) 1) as [Hlt | _]; [lia |].
    destruct (createAppointment env _ _); cbn; (split; [discriminate | now left]).
Qed.

End Submission.

Lemma email_conflict_is_recoverable_witness :
  let st := filledState StepConfirm "salasana" false None [] in
  let env := envWith (SignupFailed "auth/email-already-in-use") in
  selectedDate st = Some aThursday
  /\ JS.truthy (selectedTime st) = true
  /\ CustomerDetails.complete (customerDetails st) = true
  /\ JS.truthy (CustomerDetails.password (customerDetails st)) = true
  /\ signup env "a@b.fi" "salasana" = SignupFailed "auth/email-already-in-use"
  /\ error (fst (handleSubmit washProps None env st)) = Some msgEmailInUse
  /\ loginActionShown (fst (handleSubmit washProps None env st)) = true
  /\ createsAppointment (snd (handleSubmit washProps None env st)) = false.
Proof.
  intros st env.
  pose proof (email_conflict_is_recoverable washProps env st aThursday
                eq_refl eq_refl eq_refl eq_refl) as [Hconflict _].
  specialize (Hconflict eq_refl).
  repeat split; try reflexivity; apply Hconflict.
Defined.

Lemma coin_check_rejects_only_empty_wallet_witness :
  let st := filledState StepConfirm "" true (Some (userWithCoins 1)) [] in
  let env := envWith (SignupOk "u1") in
  selectedDate st = Some aThursday
  /\ JS.truthy (selectedTime st) = true
  /\ CustomerDetails.complete (customerDetails st) = true
  /\ JS.truthy (AuthUser.uid alice) = true
  /\ useCoins st = true
  /\ (forall user, userData st = Some user -> 0 <= Wallet.coins (User.wallet user))
  /\ In (CallCreateAppointment (appointmentData washProps env st "u1" aThursday)
           (coinsToDebit washProps st))
        (snd (handleSubmit washProps (Some alice) env st)).
Proof.
  intros st env.
  assert (forall user, userData st = Some user -> 0 <= Wallet.coins (User.wallet user))
    as Hwallet.
  { intros user Hdata. injection Hdata as <-. cbn. lia. }
  pose proof (coin_check_rejects_only_empty_wallet washProps env alice st aThursday
                eq_refl eq_refl eq_refl eq_refl eq_refl Hwallet) as (_ & _ & Hpass).
  repeat split; try reflexivity; [exact Hwallet |].
  apply (Hpass (userWithCoins 1) eq_refl). cbn. lia.
Defined.

(** * Step machine *)

Section StepMachine.

Variable p : Props.

(** The forward guard of the signup step is a non-empty password. *)
Lemma signup_guard_is_nonempty_password cu st :
  currentStep st = StepSignup ->
  currentStep (nextStep cu st) =
  if JS.truthy (CustomerDetails.password (customerDetails st))
  then StepConfirm else StepSignup.
Proof.
  intros Hstep. unfold nextStep. rewrite Hstep.
  now destruct (JS.truthy (CustomerDetails.password (customerDetails st))).
Qed.

Lemma nextStep_frame cu st :
  nextStep cu st = st \/ exists s, nextStep cu st = setCurrentStep s st.
Proof.
  unfold nextStep.
  destruct (currentStep st), (isSome (selectedDate st)), (JS.truthy (selectedTime st)),
    (CustomerDetails.complete (customerDetails st)),
    (JS.truthy (CustomerDetails.password (customerDetails st))), cu; eauto.
Qed.

Lemma prevStep_frame cu st :
  prevStep cu st = st \/ exists s, prevStep cu st = setCurrentStep s st.
Proof. unfold prevStep. destruct (currentStep st); eauto. Qed.






Lemma step_keeps_nothing_loaded m m' :
  step p m m' -> noSessionNothingLoaded m -> noSessionNothingLoaded m'.
Proof.
  unfold noSessionNothingLoaded.
  intros Hstep Hinv.
  destruct Hstep; unfold shows in *; cbn [currentUser state withState];
    try (cbn; intros; (congruence || tauto)).
  - destruct (nextStep_frame (currentUser m) (state m)) as [-> | (s & ->)]; cbn; tauto.
  - destruct (prevStep_frame (currentUser m) (state m)) as [-> | (s & ->)]; cbn; tauto.
  - intros Hnone.
    assert (currentUser m = None) as Hcu by (destruct (currentUser m); [discriminate | reflexivity]).
    destruct (handleSubmit_frame p env (currentUser m) (state m))
      as (_ & _ & _ & -> & -> & -> & _).
    tauto.
Qed.

Lemma reachable_nothing_loaded m : reachable p m -> noSessionNothingLoaded m.
Proof.
  intros [cu Hreach]. induction Hreach as [| m m' _ IH Hstep].
  - unfold noSessionNothingLoaded, opened. cbn. tauto.
  - exact (step_keeps_nothing_loaded m m' Hstep IH).
Qed.

(** C10. The offers are fetched only under a session. Whenever the modal
    has no session its offer list is empty, so the discount resolved is 0,
    and an appointment created by a submission from such a state is
    charged the undiscounted price of the service and debits no coin,
    whatever offers the vendor has. *)
Theorem no_session_books_at_base_price m env :
  reachable p m ->
  currentUser m = None ->
  (forall user vendorOffers st, loadUserData None user vendorOffers st = st)
  /\ offers (state m) = []
  /\ getServiceDiscount p (now env) (state m) = 0%Q
  /\ (forall data coins,
      In (CallCreateAppointment data coins)
         (snd (handleSubmit p (currentUser m) env (state m))) ->
      Appointment.totalPrice data = Service.price (service p) /\ coins = 0).
Proof.
  intros Hreach Hnone.
  destruct (reachable_nothing_loaded m Hreach Hnone) as (Hoffers & Hdata & Hcoins).
  assert (getServiceDiscount p (now env) (state m) = 0%Q) as Hdiscount.
  { unfold getServiceDiscount. now rewrite Hoffers. }
  split; [reflexivity |]. split; [exact Hoffers |]. split; [exact Hdiscount |].
  intros data coins Hin.
  apply handleSubmit_created in Hin as (uid & selected & -> & ->).
  unfold coinsToDebit. cbn [Appointment.totalPrice appointmentData].
  unfold totalPriceOf, getDiscountedPrice. rewrite Hcoins, Hdiscount.
  split; reflexivity.
Qed.

End StepMachine.

(** The visitor's walk is a run of the modal. *)
Lemma visitor_reaches_signup : reachableFrom washProps visitor0 visitorAtSignup.
Proof.
  assert (reachableFrom washProps visitor0 visitor1) as H1.
  { apply (reach_step _ _ visitor0); [apply reach_here |].
    exact (step_select_date washProps visitor0 aThursday (conj eq_refl eq_refl)). }
  assert (reachableFrom washProps visitor0 visitor2) as H2.
  { apply (reach_step _ _ visitor1); [exact H1 |].
    refine (step_next washProps visitor1 eq_refl _ eq_refl). discriminate. }
  assert (reachableFrom washProps visitor0 visitor3) as H3.
  { apply (reach_step _ _ visitor2); [exact H2 |].
    refine (step_select_time washProps visitor2 "10:00" (conj eq_refl eq_refl) _).
    vm_compute. auto 10. }
  assert (reachableFrom washProps visitor0 visitor4) as H4.
  { apply (reach_step _ _ visitor3); [exact H3 |].
    refine (step_next washProps visitor3 eq_refl _ eq_refl). discriminate. }
  assert (reachableFrom washProps visitor0 visitor5) as H5.
  { apply (reach_step _ _ visitor4); [exact H4 |].
    exact (step_edit_first_name washProps visitor4 "Aino" (conj eq_refl eq_refl)). }
  assert (reachableFrom washProps visitor0 visitor6) as H6.
  { apply (reach_step _ _ visitor5); [exact H5 |].
    exact (step_edit_last_name washProps visitor5 "Virtanen" (conj eq_refl eq_refl)). }
  assert (reachableFrom washProps visitor0 visitor7) as H7.
  { apply (reach_step _ _ visitor6); [exact H6 |].
    exact (step_edit_email washProps visitor6 "a@b.fi" (conj eq_refl eq_refl)). }
  assert (reachableFrom washProps visitor0 visitor8) as H8.
  { apply (reach_step _ _ visitor7); [exact H7 |].
    exact (step_edit_phone washProps visitor7 "+358401234567" (conj eq_refl eq_refl)). }
  assert (reachableFrom washProps visitor0 visitor9) as H9.
  { apply (reach_step _ _ visitor8); [exact H8 |].
    exact (step_edit_license_plate washProps visitor8 "abc-123" (conj eq_refl eq_refl)). }
  apply (reach_step _ _ visitor9); [exact H9 |].
  refine (step_next washProps visitor9 eq_refl _ eq_refl). discriminate.
Qed.

Lemma visitor_reaches_confirm : reachableFrom washProps visitor0 visitorAtConfirm.
Proof.
  apply (reach_step _ _ visitorWithPassword).
  - apply (reach_step _ _ visitorAtSignup); [exact visitor_reaches_signup |].
    exact (step_edit_password washProps visitorAtSignup "salasana" (conj eq_refl eq_refl)).
  - refine (step_next washProps visitorWithPassword eq_refl _ eq_refl). discriminate.
Qed.


(** The visitor's walk with the calendar: the first of January 1970 is
    today and lies in the month on display. *)
Lemma live_then_eq p cal cu l l' l'' :
  liveReachable p cal cu l -> liveStep p cal l l' -> l' = l'' -> liveReachable p cal cu l''.
Proof. intros Hl Hs <-. exact (live_then _ _ _ _ _ Hl Hs). Qed.


(** With nothing in between, the two halves of a submission are
    [handleSubmit] and the session it leaves. *)
Lemma submission_halves_compose p m env st pending :
  submitUntilSignup m = Some (st, pending) ->
  submitAfterSignup p env pending st = fst (handleSubmit p (currentUser m) env (state m))
  /\ sessionAfterSignup (currentUser m) env pending =
     sessionAfterSubmit (currentUser m) env
       (snd (handleSubmit p (currentUser m) env (state m))).
Proof.
  unfold submitUntilSignup, submitAfterSignup, sessionAfterSignup, handleSubmit, submitTry.
  destruct (currentUser m) as [u|]; [discriminate |].
  destruct (selectedDate (state m)) as [selected|]; [| discriminate].
  destruct (JS.truthy (selectedTime (state m))); [| discriminate].
  destruct (CustomerDetails.complete (customerDetails (state m))); [| discriminate].
  destruct (JS.truthy (CustomerDetails.password (customerDetails (state m)))) eqn:Hpw;
    [| discriminate].
  cbn [andb negb]. intros [= <- <-]. cbn [renderState pendingDate].
  unfold sessionAfterSubmit.
  destruct (signup env _ _) as [uid | code] eqn:Hs.
  - unfold submitResolved.
    destruct (negb (JS.truthy uid)); [cbn; rewrite Hs; now split |].
    destruct (insufficientCoins (state m)); [cbn; rewrite Hs; now split |].
    destruct (createAppointment env _ _); cbn; rewrite Hs; now split.
  - destruct (String.eqb code "auth/email-already-in-use"); cbn; rewrite Hs; now split.
Qed.


Lemma no_session_books_at_base_price_witness :
  let env := envWith (SignupOk "u9") in
  let data := appointmentData washProps env (state visitorAtConfirm) "u9" aThursday in
  reachable washProps visitorAtConfirm
  /\ currentUser visitorAtConfirm = None
  /\ snd (handleSubmit washProps None env (state visitorAtConfirm)) =
     [CallSignup "a@b.fi" "salasana"; CallCreateAppointment data 0; CallSetTimeout 3000]
  /\ Appointment.totalPrice data = 100%Q.
Proof.
  intros env data.
  assert (reachable washProps visitorAtConfirm) as Hreach
    by (exists None; exact visitor_reaches_confirm).
  split; [exact Hreach |]. split; [reflexivity |].
  assert (snd (handleSubmit washProps None env (state visitorAtConfirm)) =
          [CallSignup "a@b.fi" "salasana"; CallCreateAppointment data 0; CallSetTimeout 3000])
    as Hcalls by (vm_compute; reflexivity).
  split; [exact Hcalls |].
  apply (proj2 (proj2 (proj2
           (no_session_books_at_base_price washProps visitorAtConfirm env Hreach eq_refl)))
         data 0).
  change (currentUser visitorAtConfirm) with (@None AuthUser.t).
  rewrite Hcalls. right. left. reflexivity.
Defined.

(** C2, evaluated. On the signup step a password of three characters
    enables the forward button and [nextStep] moves on to confirm: the guard
    asks for a non-empty password, not for six characters. *)
Theorem short_password_reaches_confirm :
  let st := filledState StepSignup "abc" false None [] in
  (String.length (CustomerDetails.password (customerDetails st)) < 6)%nat
  /\ nextDisabled st = false
  /\ currentStep (nextStep None st) = StepConfirm.
Proof. cbv zeta. repeat split; vm_compute; (reflexivity || lia). Qed.

(** * Regular expressions *)

Section RegexFacts.

Local Arguments append : simpl nomatch.

Lemma append_empty_r (s : string) : s +:+ "" = s.
Proof. induction s as [|c s IH]; cbn; [reflexivity | now rewrite IH]. Qed.

Lemma append_assoc (a b c : string) : (a +:+ b) +:+ c = a +:+ (b +:+ c).
Proof. induction a as [|x a IH]; cbn; [reflexivity | now rewrite IH]. Qed.

















End RegexFacts.

(** * Registration form *)

Section RegisterFacts.

Local Arguments append : simpl nomatch.

























End RegisterFacts.

Section RegisterFields.

Local Arguments append : simpl nomatch.




End RegisterFields.

Section RegisterSubmit.

Variables (env : Register.Env) (st : Register.State).

Lemma messageOr_truthy message : JS.truthy (Register.messageOr message) = true.
Proof. unfold Register.messageOr. now destruct message. Qed.


(** X6. An accepted registration always ends with [loading] off. It
    navigates exactly when it ends without error message, and then to the
    vendor dashboard for a business account and to the customer dashboard
    otherwise; every failure leaves a non-empty message. When [signup]
    resolved and [createVendor] fails, the account stays created: both
    calls were made, nothing is undone and no page is opened. *)
Theorem registration_outcome :
  snd (Register.validateForm st) = true ->
  let st' := fst (Register.handleSubmit env st) in
  let calls := snd (Register.handleSubmit env st) in
  Register.loading st' = false
  /\ ((exists path, In (Register.CallNavigate path) calls) <-> Register.error st' = "")
  /\ (Register.error st' <> "" -> JS.truthy (Register.error st') = true)
  /\ (forall path,
      In (Register.CallNavigate path) calls ->
      path = if Register.isVendor st then "/vendor-dashboard" else "/customer-dashboard")
  /\ (forall uid message,
      Register.isVendor st = true ->
      Register.signup env (Register.email st) (Register.password st) true =
        Register.Resolved uid ->
      Register.createVendor env (Register.vendorDataOf st uid) =
        Register.Rejected message ->
      calls = [Register.CallSignup (Register.email st) (Register.password st) true;
               Register.CallCreateVendor (Register.vendorDataOf st uid)]
      /\ Register.error st' = Register.messageOr message).
Proof.
  intros Hvalid. cbv zeta. unfold Register.handleSubmit.
  destruct (Register.validateForm st) as [st1 valid] eqn:Hform.
  cbn [snd] in Hvalid. subst valid. cbn [negb].
  split; [| split; [| split; [| split]]].
  - destruct (Register.signup env _ _ _); [destruct (Register.isVendor st);
      [destruct (Register.createVendor env _) |] |]; reflexivity.
  - destruct (Register.signup env _ _ _) as [uid | message];
      [destruct (Register.isVendor st);
         [destruct (Register.createVendor env _) as [u | message] |] |];
      cbn; split;
      try (intros _; reflexivity);
      try (intros _; eexists; cbn; auto 6; fail).
    all: try (intros (path & Hin);
              repeat (destruct Hin as [Hin | Hin]; [discriminate Hin |]); contradiction).
    all: intros Hempty; pose proof (messageOr_truthy message) as Ht;
         rewrite Hempty in Ht; discriminate Ht.
  - destruct (Register.signup env _ _ _) as [uid | message];
      [destruct (Register.isVendor st);
         [destruct (Register.createVendor env _) as [u | message] |] |];
      cbn; intros Hne; try contradiction; apply messageOr_truthy.
  - intros path.
    destruct (Register.signup env _ _ _) as [uid | message];
      [destruct (Register.isVendor st);
         [destruct (Register.createVendor env _) as [u | message] |] |];
      cbn; intros Hin;
      repeat (destruct Hin as [Hin | Hin];
              [try discriminate Hin; now injection Hin as <- |]);
      contradiction.
  - intros uid message Hv Hs Hc. rewrite Hv, Hs, Hc. cbn. now split.
Qed.

End RegisterSubmit.

Lemma registration_outcome_witness :
  snd (Register.validateForm vendorForm) = true
  /\ snd (Register.handleSubmit (registrationEnv false) vendorForm) =
     [Register.CallSignup "pesu@autopesu.fi" "salasana" true;
      Register.CallCreateVendor (Register.vendorDataOf vendorForm "v7")]
  /\ Register.error (fst (Register.handleSubmit (registrationEnv false) vendorForm)) =
     Register.msgRegistrationFailed.
Proof.
  assert (snd (Register.validateForm vendorForm) = true) as Hvalid
    by (vm_compute; reflexivity).
  split; [exact Hvalid |].
  exact (proj2 (proj2 (proj2 (proj2
           (registration_outcome (registrationEnv false) vendorForm Hvalid))))
         "v7" "" eq_refl eq_refl eq_refl).
Defined.






Section Weekdays.

Lemma weekday_key date : In (JS.toLowerCase (formatEEEE date)) weekdayKeys.
Proof.
  unfold formatEEEE.
  pose proof (Z.mod_pos_bound (epochDay date + 4) 7 ltac:(lia)) as Hb.
  assert ((epochDay date + 4) mod 7 = 0 \/ (epochDay date + 4) mod 7 = 1
          \/ (epochDay date + 4) mod 7 = 2 \/ (epochDay date + 4) mod 7 = 3
          \/ (epochDay date + 4) mod 7 = 4 \/ (epochDay date + 4) mod 7 = 5
          \/ (epochDay date + 4) mod 7 = 6) as Hcases by lia.
  destruct Hcases as [-> | [-> | [-> | [-> | [-> | [-> | ->]]]]]];
    vm_compute; auto 10.
Qed.

(** X7. A vendor as written at registration has hours for Monday to Friday
    only, and still the booking modal offers the sixteen slots 09:00 to
    16:30 on every date, Saturdays and Sundays included, and marks every
    date available: the missing weekend keys fall back to 09:00-17:00. The
    profile page shows the Monday hours on those days. *)
Theorem registered_vendor_is_bookable_every_day st uid date :
  let v := registeredVendor (Register.vendorDataOf st uid) in
  getDayOperatingHours date v = Register.officeHours
  /\ hasAvailableTimes date v = true
  /\ getAvailableTimes (Some date) v = nineToFive
  /\ VendorProfile.openingLine date v = Some "Avoinna tänään: 09:00 - 17:00".
Proof.
  cbv zeta.
  assert (getDayOperatingHours date (registeredVendor (Register.vendorDataOf st uid)) =
          Register.officeHours
          /\ VendorProfile.todayHours date (registeredVendor (Register.vendorDataOf st uid)) =
             Some Register.officeHours) as [Hhours Htoday].
  { unfold getDayOperatingHours, VendorProfile.todayHours.
    cbn [operatingHours registeredVendor Register.vendorOperatingHours
         Register.vendorDataOf].
    pose proof (weekday_key date) as Hkey. unfold weekdayKeys in Hkey. cbn [In] in Hkey.
    destruct Hkey as [<- | [<- | [<- | [<- | [<- | [<- | [<- | []]]]]]]];
      split; vm_compute; reflexivity. }
  split; [exact Hhours |].
  split; [unfold hasAvailableTimes; now rewrite Hhours |].
  split; [now apply nineToFive_slots |].
  unfold VendorProfile.openingLine. rewrite Htoday. reflexivity.
Qed.

(** X8. The modal reads the hours under the lower-case English name of the
    weekday only: hours stored under any other key, a capitalised name for
    instance, never change the hours, the slots or the availability of any
    date. *)
Theorem hours_under_other_keys_are_ignored date key hours table :
  ~ In key weekdayKeys ->
  let v := {| operatingHours := table |} in
  let v' := {| operatingHours := <[key := hours]> table |} in
  getDayOperatingHours date v' = getDayOperatingHours date v
  /\ getAvailableTimes (Some date) v' = getAvailableTimes (Some date) v
  /\ hasAvailableTimes date v' = hasAvailableTimes date v.
Proof.
  intros Hkey. cbv zeta.
  assert (getDayOperatingHours date {| operatingHours := <[key := hours]> table |} =
          getDayOperatingHours date {| operatingHours := table |}) as Hsame.
  { unfold getDayOperatingHours. cbn [operatingHours].
    rewrite lookup_insert_ne; [reflexivity |].
    intros ->. apply Hkey, weekday_key. }
  split; [exact Hsame |].
  split; [now rewrite !getAvailableTimes_parsed, Hsame |].
  unfold hasAvailableTimes. now rewrite Hsame.
Qed.

End Weekdays.

Lemma hours_under_other_keys_are_ignored_witness :
  ~ In "Thursday" weekdayKeys
  /\ getAvailableTimes (Some aThursday)
       {| operatingHours :=
            <["Thursday" := {| open := "closed"; close := "closed" |}]>
              (operatingHours morningVendor) |} =
     getAvailableTimes (Some aThursday) morningVendor.
Proof.
  assert (~ In "Thursday" weekdayKeys) as Hkey.
  { cbn. intros Hin. repeat (destruct Hin as [Hin | Hin]; [discriminate Hin |]). exact Hin. }
  split; [exact Hkey |].
  exact (proj1 (proj2 (hours_under_other_keys_are_ignored aThursday "Thursday"
                         {| open := "closed"; close := "closed" |}
                         (operatingHours morningVendor) Hkey))).
Defined.


Section SubmissionEdges.

Variables (p : Props) (env : Env).


(** X9. A submission that lacks the date or the time only reports that
    date and time must be chosen, and one that lacks a customer detail only
    reports that the details must be filled in: no call is made and
    [loading] is left as it was. A visitor without session who gave no
    password is told that signing in failed, again without any call. *)
Theorem submission_validation_errors cu st :
  (selectedDate st = None \/ selectedTime st = "" ->
   handleSubmit p cu env st = (setError (Some msgSelectDateTime) st, []))
  /\ (selectedDate st <> None -> selectedTime st <> "" ->
      CustomerDetails.complete (customerDetails st) = false ->
      handleSubmit p cu env st = (setError (Some msgFillDetails) st, []))
  /\ (selectedDate st <> None -> selectedTime st <> "" ->
      CustomerDetails.complete (customerDetails st) = true ->
      cu = None ->
      CustomerDetails.password (customerDetails st) = "" ->
      handleSubmit p cu env st =
      (setLoading false (setError (Some msgLoginFailed) (setError None (setLoading true st))),
       [])).
Proof.
  split; [| split].
  - intros [Hdate | Htime]; unfold handleSubmit.
    + now rewrite Hdate.
    + rewrite Htime. now destruct (selectedDate st).
  - intros Hdate Htime Hdetails. unfold handleSubmit.
    destruct (selectedDate st); [| contradiction].
    destruct (selectedTime st); [contradiction |]. cbn [JS.truthy negb].
    now rewrite Hdetails.
  - intros Hdate Htime Hdetails -> Hpw. unfold handleSubmit, submitTry.
    destruct (selectedDate st); [| contradiction].
    destruct (selectedTime st); [contradiction |]. cbn [JS.truthy negb].
    rewrite Hdetails, Hpw. reflexivity.
Qed.



End SubmissionEdges.

Section PricingBounds.

Local Open Scope Q_scope.

Variables (p : Props) (instant : Z) (st : State).

Hypothesis price_nonneg : 0 <= Service.price (service p).
Hypothesis discount_range : 0 <= getServiceDiscount p instant st <= 100.
Hypothesis wallet_nonneg : (0 <= walletCoinsOrZero st)%Z.





End PricingBounds.



Section Discounts.

Variables (p : Props) (instant : Z) (st : State).

Lemma getServiceDiscount_find :
  getServiceDiscount p instant st =
  match List.find (offerApplies (Service.id (service p)) instant) (offers st) with
  | Some o => orZero (Offer.discountPercentage o)
  | None => 0%Q
  end.
Proof. reflexivity. Qed.

Lemma find_first {A} (f : A -> bool) before x after :
  (forall y, In y before -> f y = false) -> f x = true ->
  List.find f (before ++ x :: after) = Some x.
Proof.
  intros Hbefore Hx. induction before as [|y before IH]; cbn.
  - now rewrite Hx.
  - rewrite (Hbefore y (or_introl eq_refl)). apply IH.
    intros z Hz. apply Hbefore. now right.
Qed.

Lemma find_none_iff {A} (f : A -> bool) l :
  List.find f l = None <-> forall y, In y l -> f y = false.
Proof.
  induction l as [|x l IH]; cbn.
  - split; [intros _ y [] | reflexivity].
  - destruct (f x) eqn:Hx.
    + split; [discriminate |]. intros H. rewrite (H x (or_introl eq_refl)) in Hx.
      discriminate Hx.
    + rewrite IH. split.
      * intros H y [<- | Hy]; [exact Hx | now apply H].
      * intros H y Hy. apply H. now right.
Qed.

(** X14. The discount is that of the first offer in the list that is for
    the service and whose window holds the instant, whatever follows it in
    the list, a larger discount included; offers for other services or
    outside their window are passed over, and when none applies the
    discount is 0 and the discounted price is the base price. *)
Theorem discount_is_first_applicable_offer :
  ((forall o, In o (offers st) -> offerApplies (Service.id (service p)) instant o = false) ->
   getServiceDiscount p instant st = 0%Q
   /\ getDiscountedPrice p instant st = Service.price (service p))
  /\ (forall before o after,
      offers st = (before ++ o :: after)%list ->
      (forall o', In o' before -> offerApplies (Service.id (service p)) instant o' = false) ->
      offerApplies (Service.id (service p)) instant o = true ->
      getServiceDiscount p instant st = orZero (Offer.discountPercentage o))
  /\ (forall o,
      offerApplies (Service.id (service p)) instant o = true <->
      Offer.serviceId o = Service.id (service p)
      /\ (Offer.startDate o <= instant <= Offer.endDate o)%Z).
Proof.
  split; [| split].
  - intros Hnone. apply find_none_iff in Hnone.
    assert (getServiceDiscount p instant st = 0%Q) as Hd
      by (rewrite getServiceDiscount_find; now rewrite Hnone).
    split; [exact Hd |]. unfold getDiscountedPrice. now rewrite Hd.
  - intros before o after Hoffers Hbefore Ho.
    rewrite getServiceDiscount_find, Hoffers.
    now rewrite (find_first _ before o after Hbefore Ho).
  - intros o. unfold offerApplies.
    rewrite !andb_true_iff, String.eqb_eq, Z.leb_le, Z.geb_le. tauto.
Qed.

End Discounts.

Section SlotReadBack.

Lemma slotsReadBack_ok : slotsReadBack = true.
Proof. vm_compute. reflexivity. Qed.

Lemma formatSlot_reads_back selected t :
  0 <= t < 1440 ->
  appointmentDateTime selected (formatSlot t) =
  {| day := selected; hours := Some (t / 60); minutes := Some (t mod 60) |}.
Proof.
  intros Ht.
  pose proof slotsReadBack_ok as Hall. unfold slotsReadBack in Hall.
  rewrite forallb_forall in Hall.
  specialize (Hall (Z.to_nat t)). rewrite in_seq in Hall.
  rewrite !Z2Nat.id in Hall by lia. specialize (Hall ltac:(lia)).
  unfold appointmentDateTime in *. cbn [hours minutes] in Hall.
  destruct (JS.parseIntOpt (JS.split ":" (formatSlot t) !! 0%nat)) as [h|];
    [| discriminate Hall].
  destruct (JS.parseIntOpt (JS.split ":" (formatSlot t) !! 1%nat)) as [m|];
    [| discriminate Hall].
  apply andb_true_iff in Hall as [Hh Hm].
  apply Z.eqb_eq in Hh, Hm. now subst.
Qed.

(** X15. Every slot the modal offers for hours that are clock strings is
    read back by the submission as its own time: the appointment's
    date-time gets the slot's hour, between 0 and 23, and its minute,
    between 0 and 59, on the selected day. *)
Theorem offered_slot_reads_back date vendor o c slot selected :
  clockString (open (getDayOperatingHours date vendor)) o ->
  clockString (close (getDayOperatingHours date vendor)) c ->
  In slot (getAvailableTimes (Some date) vendor) ->
  exists t,
    o <= t < c /\ slot = formatSlot t
    /\ appointmentDateTime selected slot =
       {| day := selected; hours := Some (t / 60); minutes := Some (t mod 60) |}
    /\ 0 <= t / 60 < 24 /\ 0 <= t mod 60 < 60.
Proof.
  intros Ho Hc Hin.
  assert (0 <= o < 1440 /\ 0 <= c < 1440) as [Hor Hcr]
    by (split; [inversion Ho | inversion Hc]; lia).
  rewrite (getAvailableTimes_grid date vendor o c Ho Hc) in Hin.
  apply in_map_iff in Hin as (t & <- & Ht).
  apply halfHourGrid_In in Ht as [Ht _].
  exists t. split; [exact Ht |]. split; [reflexivity |].
  split; [apply formatSlot_reads_back; lia |].
  split; [| apply Z.mod_pos_bound; lia].
  split; [apply Z.div_pos; lia | apply Z.div_lt_upper_bound; lia].
Qed.

(** X16. A date whose hours are not the closed sentinel is marked
    available even when it has no slot to offer: that is so when the
    opening or the closing hour does not start with a number, and when
    the clock strings close at or before the opening time. *)
Theorem available_day_without_slots date vendor :
  isClosed (getDayOperatingHours date vendor) = false ->
  parsedMinutes (open (getDayOperatingHours date vendor)) = None
  \/ parsedMinutes (close (getDayOperatingHours date vendor)) = None
  \/ (exists o c,
        clockString (open (getDayOperatingHours date vendor)) o
        /\ clockString (close (getDayOperatingHours date vendor)) c
        /\ c <= o) ->
  hasAvailableTimes date vendor = true
  /\ getAvailableTimes (Some date) vendor = [].
Proof.
  intros Hopen Hcases.
  split; [unfold hasAvailableTimes; now rewrite Hopen |].
  destruct Hcases as [Hnone | [Hnone | (o & c & Ho & Hc & Hle)]].
  - rewrite getAvailableTimes_parsed. cbv zeta. rewrite Hopen.
    destruct (isFullDay (getDayOperatingHours date vendor)) eqn:Hfull.
    + apply isFullDay_true in Hfull as [Hfo _]. rewrite Hfo in Hnone.
      vm_compute in Hnone. discriminate Hnone.
    + now rewrite Hnone.
  - rewrite getAvailableTimes_parsed. cbv zeta. rewrite Hopen.
    destruct (isFullDay (getDayOperatingHours date vendor)) eqn:Hfull.
    + apply isFullDay_true in Hfull as [_ Hfc]. rewrite Hfc in Hnone.
      vm_compute in Hnone. discriminate Hnone.
    + rewrite Hnone.
      destruct (parsedMinutes (open (getDayOperatingHours date vendor))); reflexivity.
  - rewrite (getAvailableTimes_grid date vendor o c Ho Hc).
    now rewrite halfHourGrid_nil.
Qed.

End SlotReadBack.

Lemma offered_slot_reads_back_witness :
  clockString (open (getDayOperatingHours aThursday morningVendor)) (8 * 60 + 30)
  /\ clockString (close (getDayOperatingHours aThursday morningVendor)) (12 * 60 + 0)
  /\ In "10:00" (getAvailableTimes (Some aThursday) morningVendor)
  /\ exists t, "10:00" = formatSlot t
       /\ appointmentDateTime aThursday "10:00" =
          {| day := aThursday; hours := Some (t / 60); minutes := Some (t mod 60) |}.
Proof.
  assert (clockString (open (getDayOperatingHours aThursday morningVendor)) (8 * 60 + 30))
    as Ho by exact (clock_hhmm 8 30 ltac:(lia) ltac:(lia)).
  assert (clockString (close (getDayOperatingHours aThursday morningVendor)) (12 * 60 + 0))
    as Hc by exact (clock_hhmm 12 0 ltac:(lia) ltac:(lia)).
  assert (In "10:00" (getAvailableTimes (Some aThursday) morningVendor)) as Hin
    by (vm_compute; auto 10).
  split; [exact Ho |]. split; [exact Hc |]. split; [exact Hin |].
  destruct (offered_slot_reads_back aThursday morningVendor _ _ "10:00" aThursday Ho Hc Hin)
    as (t & _ & Hslot & Hread & _).
  exists t. split; [exact Hslot | exact Hread].
Defined.

Lemma available_day_without_slots_witness :
  isClosed (getDayOperatingHours aThursday backwardsVendor) = false
  /\ hasAvailableTimes aThursday backwardsVendor = true
  /\ getAvailableTimes (Some aThursday) backwardsVendor = [].
Proof.
  split; [reflexivity |].
  apply (available_day_without_slots aThursday backwardsVendor eq_refl).
  right. right. exists (17 * 60 + 0), (9 * 60 + 0).
  split; [exact (clock_hhmm 17 0 ltac:(lia) ltac:(lia)) |].
  split; [exact (clock_hhmm 9 0 ltac:(lia) ltac:(lia)) | lia].
Defined.

Section StepGuards.

(** X17. Before the confirm step the forward button is enabled only when
    a click moves on: an enabled button always takes [nextStep] to a later
    step, and whenever [nextStep] would stay the button is disabled. With a
    date selected the two agree exactly. *)
Theorem forward_button_agrees_with_nextStep cu st :
  currentStep st <> StepConfirm ->
  (nextDisabled st = false ->
   (stepRank (currentStep st) < stepRank (currentStep (nextStep cu st)))%nat)
  /\ (nextStep cu st = st -> nextDisabled st = true)
  /\ (isSome (selectedDate st) = true -> nextDisabled st = true -> nextStep cu st = st).
Proof.
  intros Hstep.
  assert (nextDisabled st = false ->
          (stepRank (currentStep st) < stepRank (currentStep (nextStep cu st)))%nat)
    as Hforward.
  { unfold nextDisabled, nextStep.
    destruct (currentStep st) eqn:Hcur, (isSome (selectedDate st)),
      (JS.truthy (selectedTime st)), (CustomerDetails.complete (customerDetails st)),
      (JS.truthy (CustomerDetails.password (customerDetails st))), cu;
      cbn; intros Hd; try discriminate Hd; try contradiction; lia. }
  split; [exact Hforward |]. split.
  - intros Hstay. destruct (nextDisabled st); [reflexivity |].
    specialize (Hforward eq_refl). rewrite Hstay in Hforward. lia.
  - unfold nextDisabled, nextStep. intros ->.
    destruct (currentStep st) eqn:Hcur, (JS.truthy (selectedTime st)),
      (CustomerDetails.complete (customerDetails st)),
      (JS.truthy (CustomerDetails.password (customerDetails st))), cu;
      cbn; intros Hd; try discriminate Hd; try contradiction; reflexivity.
Qed.

(** X18. Going back undoes going forward: whenever [nextStep] moves to
    another step, [prevStep] from there returns the very state it left,
    provided the signup step is not on with a session. *)
Theorem prevStep_undoes_nextStep cu st :
  (currentStep st = StepSignup -> cu = None) ->
  currentStep (nextStep cu st) <> currentStep st ->
  prevStep cu (nextStep cu st) = st.
Proof.
  destruct st as [step date time coins load err prompt done data offs details].
  unfold nextStep, prevStep. cbn.
  destruct step, (isSome date), (JS.truthy time), (CustomerDetails.complete details),
    (JS.truthy (CustomerDetails.password details)), cu;
    cbn; intros Hsession Hmoved; try reflexivity; try contradiction;
    discriminate (Hsession eq_refl).
Qed.

End StepGuards.

Lemma forward_button_agrees_with_nextStep_witness :
  currentStep (state visitor1) <> StepConfirm
  /\ nextDisabled (state visitor1) = false
  /\ (stepRank (currentStep (state visitor1)) <
      stepRank (currentStep (nextStep None (state visitor1))))%nat.
Proof.
  assert (currentStep (state visitor1) <> StepConfirm) as Hstep by discriminate.
  split; [exact Hstep |]. split; [reflexivity |].
  exact (proj1 (forward_button_agrees_with_nextStep None (state visitor1) Hstep) eq_refl).
Defined.

Lemma prevStep_undoes_nextStep_witness :
  (currentStep (state visitor9) = StepSignup -> @None AuthUser.t = None)
  /\ currentStep (nextStep None (state visitor9)) <> currentStep (state visitor9)
  /\ prevStep None (nextStep None (state visitor9)) = state visitor9.
Proof.
  assert (currentStep (nextStep None (state visitor9)) <> currentStep (state visitor9))
    as Hmoved by discriminate.
  split; [reflexivity |]. split; [exact Hmoved |].
  exact (prevStep_undoes_nextStep None (state visitor9) (fun _ => eq_refl) Hmoved).
Defined.

Section Runs.

Variable p : Props.

Lemma handleSubmit_error_text cu env st e :
  error (fst (handleSubmit p cu env st)) = Some e ->
  JS.truthy e = true
  /\ showLoginPrompt (fst (handleSubmit p cu env st)) = true \/
  JS.truthy e = true
  /\ showLoginPrompt (fst (handleSubmit p cu env st)) = showLoginPrompt st.
Proof.
  unfold handleSubmit, submitTry, submitResolved. cbv zeta.
  repeat match goal with
  | |- context [match ?x with _ => _ end] =>
      lazymatch x with
      | context [match _ with _ => _ end] => fail
      | _ => destruct x eqn:?
      end
  end; cbn; intros He; try discriminate He; injection He as <-;
    first [ right; split; reflexivity | left; split; reflexivity ].
Qed.

Lemma handleSubmit_keeps_prompt cu env st :
  showLoginPrompt st = true -> showLoginPrompt (fst (handleSubmit p cu env st)) = true.
Proof.
  unfold handleSubmit, submitTry, submitResolved. cbv zeta.
  repeat match goal with
  | |- context [match ?x with _ => _ end] =>
      lazymatch x with
      | context [match _ with _ => _ end] => fail
      | _ => destruct x eqn:?
      end
  end; cbn; auto.
Qed.

Lemma step_keeps_selections m m' :
  step p m m' -> selectionsInPlace m -> selectionsInPlace m'.
Proof.
  unfold selectionsInPlace.
  intros Hstep (Hdate & Htime & Hdetails & Hconfirm).
  destruct Hstep; unfold shows in *;
    repeat match goal with H : _ /\ _ |- _ => destruct H end;
    cbn [currentUser state withState] in *.
  1-9: cbn [currentStep selectedDate selectedTime customerDetails setSelectedDate
            setSelectedTime setCurrentStep setCustomerDetails editDetails
            CustomerDetails.password CustomerDetails.setFirstName
            CustomerDetails.setLastName CustomerDetails.setEmail CustomerDetails.setPhone
            CustomerDetails.setLicensePlate CustomerDetails.setPassword] in *;
       try match goal with H : currentStep _ = _ |- _ => rewrite H in * end;
       cbn [stepRank] in *;
       repeat split; intros; try lia; try congruence; auto.
  - unfold nextStep.
    destruct (currentStep (state m)) eqn:Hcur, (isSome (selectedDate (state m))) eqn:Hd,
      (JS.truthy (selectedTime (state m))) eqn:Ht,
      (CustomerDetails.complete (customerDetails (state m))) eqn:Hc,
      (JS.truthy (CustomerDetails.password (customerDetails (state m)))) eqn:Hp,
      (currentUser m) eqn:Hu;
      cbn in *; rewrite ?Hcur, ?Hd, ?Ht, ?Hc, ?Hp in *; cbn in *;
      repeat split; intros; cbn in *; try lia; try congruence; auto;
      try (apply Hdate; lia); try (apply Htime; lia); try (apply Hdetails; lia).
  - unfold prevStep.
    destruct (currentStep (state m)) eqn:Hcur, (currentUser m) eqn:Hu;
      cbn in *; rewrite ?Hcur in *; cbn in *;
      repeat split; intros; cbn in *; try lia; try congruence; auto;
      try (apply Hdate; lia); try (apply Htime; lia); try (apply Hdetails; lia).
  - match goal with H : currentStep _ = _ |- _ => rewrite H in * end.
    cbn in *. repeat split; intros; auto.
  - match goal with
    | |- context [handleSubmit p ?cu ?e ?s] =>
        destruct (handleSubmit_frame p e cu s) as (-> & -> & -> & _ & _ & _ & ->)
    end.
    match goal with H : currentStep _ = _ |- _ => rewrite H in * end.
    cbn in *. repeat split; intros; auto.
    destruct (Hconfirm eq_refl) as [Hs | Hp]; [| now right].
    left. destruct (currentUser m); [reflexivity | discriminate Hs].
  - unfold loadUserData. destruct (currentUser m); cbn in *; auto.
Qed.

Lemma reachable_selections m : reachable p m -> selectionsInPlace m.
Proof.
  intros [cu Hreach]. induction Hreach as [| m m' _ IH Hstep].
  - unfold selectionsInPlace, opened. cbn. repeat split; intros; try lia; discriminate.
  - exact (step_keeps_selections m m' Hstep IH).
Qed.

Lemma step_keeps_error_text m m' : step p m m' -> errorHasText m -> errorHasText m'.
Proof.
  unfold errorHasText. intros Hstep Hinv.
  destruct Hstep; cbn [currentUser state withState]; try exact Hinv.
  - destruct (nextStep_frame (currentUser m) (state m)) as [-> | (s & ->)]; exact Hinv.
  - destruct (prevStep_frame (currentUser m) (state m)) as [-> | (s & ->)]; exact Hinv.
  - intros e He. now destruct (handleSubmit_error_text _ _ _ _ He) as [[? _] | [? _]].
  - unfold loadUserData. destruct (currentUser m); exact Hinv.
Qed.

Lemma reachable_error_text m : reachable p m -> errorHasText m.
Proof.
  intros [cu Hreach]. induction Hreach as [| m m' _ IH Hstep].
  - unfold errorHasText, opened. cbn. discriminate.
  - exact (step_keeps_error_text m m' Hstep IH).
Qed.

(** X19. In every state the modal can reach on the confirm step a date is
    selected, a time is selected, the five customer details are filled in,
    and there is a session or a password. So a submission from there never
    reports a missing date, time or detail; it always ends with [loading]
    off; and without session it starts with [signup]. *)
Theorem confirm_step_has_all_selections m env :
  reachable p m ->
  currentStep (state m) = StepConfirm ->
  (exists selected, selectedDate (state m) = Some selected)
  /\ selectedTime (state m) <> ""
  /\ CustomerDetails.complete (customerDetails (state m)) = true
  /\ error (fst (handleSubmit p (currentUser m) env (state m))) <> Some msgSelectDateTime
  /\ error (fst (handleSubmit p (currentUser m) env (state m))) <> Some msgFillDetails
  /\ loading (fst (handleSubmit p (currentUser m) env (state m))) = false
  /\ (currentUser m = None ->
      exists rest,
        snd (handleSubmit p (currentUser m) env (state m)) =
        CallSignup (CustomerDetails.email (customerDetails (state m)))
                   (CustomerDetails.password (customerDetails (state m))) :: rest).
Proof.
  intros Hreach Hstep.
  destruct (reachable_selections m Hreach) as (Hdate & Htime & Hdetails & Hconfirm).
  rewrite Hstep in *. cbn [stepRank] in *.
  specialize (Hdate ltac:(lia)). specialize (Htime ltac:(lia)).
  specialize (Hdetails ltac:(lia)). specialize (Hconfirm eq_refl).
  destruct (selectedDate (state m)) as [selected|] eqn:Hsel; [| discriminate Hdate].
  split; [now exists selected |].
  split; [intros Hempty; rewrite Hempty in Htime; discriminate Htime |].
  split; [exact Hdetails |].
  unfold handleSubmit. rewrite Hsel, Htime, Hdetails. cbn [negb].
  unfold submitTry, submitResolved. cbv zeta.
  destruct (currentUser m) as [u|] eqn:Hu.
  - cbn [fmap option_fmap option_map].
    destruct (JS.truthy (AuthUser.uid u)), (insufficientCoins (state m));
      try destruct (createAppointment env _ _); cbn;
      repeat split; try discriminate; try reflexivity.
  - destruct Hconfirm as [Hs | Hpw]; [discriminate Hs |]. rewrite Hpw.
    destruct (signup env _ _) as [uid | code].
    + destruct (JS.truthy uid), (insufficientCoins (state m));
        try destruct (createAppointment env _ _); cbn;
        repeat split; try discriminate; try reflexivity; intros _; eauto.
    + destruct (String.eqb code _); cbn;
        repeat split; try discriminate; try reflexivity; intros _; eauto.
Qed.

(** X20. Once the login prompt is on, nothing the user does takes it off
    again: it stays through every later transition, and every error shown
    from then on, a missing selection or the generic retry message
    included, comes with the login button. *)
Theorem login_prompt_is_never_withdrawn m m' :
  reachable p m ->
  showLoginPrompt (state m) = true ->
  step p m m' ->
  showLoginPrompt (state m') = true
  /\ (error (state m') <> None -> loginActionShown (state m') = true).
Proof.
  intros Hreach Hprompt Hstep.
  assert (showLoginPrompt (state m') = true) as Hprompt'.
  { destruct Hstep; cbn [currentUser state withState]; try exact Hprompt.
    - destruct (nextStep_frame (currentUser m) (state m)) as [-> | (s & ->)]; exact Hprompt.
    - destruct (prevStep_frame (currentUser m) (state m)) as [-> | (s & ->)]; exact Hprompt.
    - now apply handleSubmit_keeps_prompt.
    - unfold loadUserData. destruct (currentUser m); exact Hprompt. }
  split; [exact Hprompt' |].
  assert (reachable p m') as Hreach'.
  { destruct Hreach as [cu Hr]. exists cu. exact (reach_step p _ m m' Hr Hstep). }
  pose proof (reachable_error_text m' Hreach') as Htext.
  unfold errorHasText in Htext. unfold loginActionShown. intros Herr.
  destruct (error (state m')) as [e|]; [| contradiction].
  now rewrite (Htext e eq_refl), Hprompt'.
Qed.

Lemma step_keeps_offers_active m m' :
  step p m m' ->
  (forall o, In o (offers (state m)) -> Offer.active o = true) ->
  forall o, In o (offers (state m')) -> Offer.active o = true.
Proof.
  intros Hstep Hinv.
  destruct Hstep; cbn [currentUser state withState]; try exact Hinv.
  - destruct (nextStep_frame (currentUser m) (state m)) as [-> | (s & ->)]; exact Hinv.
  - destruct (prevStep_frame (currentUser m) (state m)) as [-> | (s & ->)]; exact Hinv.
  - match goal with
    | |- context [handleSubmit p ?cu ?e ?s] =>
        destruct (handleSubmit_frame p e cu s) as (_ & _ & _ & _ & _ & -> & _)
    end.
    exact Hinv.
  - unfold loadUserData. destruct (currentUser m); [| exact Hinv]. cbn.
    intros o Hin. apply list_elem_of_In, list_elem_of_filter in Hin. apply Hin.
Qed.

(** X21. In every state the modal can reach all the offers it holds are
    active ones, so every discount it applies, at whatever instant, is the
    percentage of an active offer for the service whose window holds that
    instant. *)
Theorem applied_discount_comes_from_active_offer m instant :
  reachable p m ->
  (forall o, In o (offers (state m)) -> Offer.active o = true)
  /\ (getServiceDiscount p instant (state m) <> 0%Q ->
      exists o,
        In o (offers (state m))
        /\ Offer.active o = true
        /\ Offer.serviceId o = Service.id (service p)
        /\ Offer.startDate o <= instant <= Offer.endDate o
        /\ getServiceDiscount p instant (state m) = Offer.discountPercentage o).
Proof.
  intros [cu Hreach].
  assert (forall o, In o (offers (state m)) -> Offer.active o = true) as Hactive.
  { induction Hreach as [| m m' _ IH Hstep].
    - cbn. contradiction.
    - exact (step_keeps_offers_active m m' Hstep IH). }
  split; [exact Hactive |].
  rewrite getServiceDiscount_find.
  destruct (List.find _ (offers (state m))) as [o|] eqn:Hfind; [| contradiction].
  apply find_some in Hfind as [Hin Happlies].
  intros Hne. exists o. split; [exact Hin |]. split; [now apply Hactive |].
  unfold offerApplies in Happlies.
  rewrite !andb_true_iff, String.eqb_eq, Z.leb_le, Z.geb_le in Happlies.
  destruct Happlies as [[Hid Hs] He].
  repeat split; try assumption.
  unfold orZero in *. destruct (Qeq_bool (Offer.discountPercentage o) 0);
    [contradiction | reflexivity].
Qed.

End Runs.

Lemma confirm_step_has_all_selections_witness :
  reachable washProps visitorAtConfirm
  /\ currentStep (state visitorAtConfirm) = StepConfirm
  /\ loading (fst (handleSubmit washProps (currentUser visitorAtConfirm) conflictEnv
                     (state visitorAtConfirm))) = false.
Proof.
  assert (reachable washProps visitorAtConfirm) as Hreach
    by (exists None; exact visitor_reaches_confirm).
  split; [exact Hreach |]. split; [reflexivity |].
  apply (confirm_step_has_all_selections washProps visitorAtConfirm conflictEnv Hreach eq_refl).
Defined.

Lemma visitor_meets_conflict : reachable washProps visitorAfterConflict.
Proof.
  exists None. apply (reach_step _ _ visitorAtConfirm); [exact visitor_reaches_confirm |].
  exact (step_submit washProps visitorAtConfirm conflictEnv (conj eq_refl eq_refl) eq_refl).
Qed.

Lemma login_prompt_is_never_withdrawn_witness :
  reachable washProps visitorAfterConflict
  /\ showLoginPrompt (state visitorAfterConflict) = true
  /\ step washProps visitorAfterConflict visitorAfterOutage
  /\ error (state visitorAfterOutage) = Some msgBookingFailed
  /\ loginActionShown (state visitorAfterOutage) = true.
Proof.
  assert (step washProps visitorAfterConflict visitorAfterOutage) as Hstep
    by exact (step_submit washProps visitorAfterConflict outageEnv
                (conj eq_refl eq_refl) eq_refl).
  split; [exact visitor_meets_conflict |]. split; [reflexivity |].
  split; [exact Hstep |]. split; [reflexivity |].
  apply (login_prompt_is_never_withdrawn washProps visitorAfterConflict visitorAfterOutage
           visitor_meets_conflict eq_refl Hstep).
  discriminate.
Defined.

Lemma alice_loads_offers : reachable washProps aliceLoaded.
Proof.
  exists (Some alice). apply (reach_step _ _ (opened (Some alice))); [apply reach_here |].
  exact (step_user_data_loaded washProps (opened (Some alice)) alice
           (Some (userWithCoins 200)) [halfPrice] eq_refl).
Qed.

Lemma applied_discount_comes_from_active_offer_witness :
  reachable washProps aliceLoaded
  /\ getServiceDiscount washProps 5 (state aliceLoaded) <> 0%Q
  /\ exists o, In o (offers (state aliceLoaded)) /\ Offer.active o = true
       /\ getServiceDiscount washProps 5 (state aliceLoaded) = Offer.discountPercentage o.
Proof.
  assert (getServiceDiscount washProps 5 (state aliceLoaded) <> 0%Q) as Hne
    by (vm_compute; discriminate).
  split; [exact alice_loads_offers |]. split; [exact Hne |].
  destruct (proj2 (applied_discount_comes_from_active_offer washProps aliceLoaded 5
                     alice_loads_offers) Hne) as (o & Hin & Hactive & _ & _ & Hd).
  exists o. repeat split; assumption.
Defined.


Section StaleTime.

Local Arguments append : simpl nomatch.

Variables (p : Props) (cal : Calendar).

Lemma slotLoop_entries fuel : forall time endTime times slot,
  In slot (slotLoop fuel time endTime times) ->
  In slot times \/ exists t, slot = formatSlot t.
Proof.
  induction fuel as [|fuel IH]; intros time endTime times slot; cbn [slotLoop].
  - auto.
  - destruct (time <? endTime); [| auto].
    intros Hin. apply IH in Hin as [Hin | Hin]; [| auto].
    apply in_app_iff in Hin as [Hin | [<- | []]]; eauto.
Qed.

Lemma append_colon_nonempty (a b : string) : a +:+ ":" +:+ b <> "".
Proof. destruct a; cbn; discriminate. Qed.

(** An offered slot is never the empty string. *)
Lemma slot_nonempty selected vendor slot :
  In slot (getAvailableTimes selected vendor) -> slot <> "".
Proof.
  unfold getAvailableTimes.
  destruct selected as [date|]; [| contradiction].
  cbv zeta. destruct (isClosed _); [contradiction |].
  destruct (isFullDay _).
  - intros Hin. apply in_map_iff in Hin as (i & <- & _).
    unfold fullDaySlot. apply append_colon_nonempty.
  - destruct (minutesOfDay _ _) as [startTime|]; [| contradiction].
    destruct (minutesOfDay _ _) as [endTime|]; [| contradiction].
    intros Hin. apply slotLoop_entries in Hin as [[] | (t & ->)].
    unfold formatSlot. apply append_colon_nonempty.
Qed.

(** On the date step the calendar can be paged to any month. *)
Lemma page_forward cu l (n : nat) :
  liveReachable p cal cu l -> shows (modal l) StepDate ->
  liveReachable p cal cu (withMonth l (currentMonth l + Z.of_nat n)).
Proof.
  intros Hl Hshows. induction n as [|n IH].
  - replace (withMonth l (currentMonth l + Z.of_nat 0)) with l; [exact Hl |].
    destruct l. unfold withMonth. cbn. now rewrite Z.add_0_r.
  - apply (live_then_eq p cal cu _ _ _ IH (live_next_month p cal (withMonth l (currentMonth l + Z.of_nat n)) Hshows)).
    unfold withMonth. cbn. f_equal. lia.
Qed.

Lemma page_backward cu l (n : nat) :
  liveReachable p cal cu l -> shows (modal l) StepDate ->
  liveReachable p cal cu (withMonth l (currentMonth l - Z.of_nat n)).
Proof.
  intros Hl Hshows. induction n as [|n IH].
  - replace (withMonth l (currentMonth l - Z.of_nat 0)) with l; [exact Hl |].
    destruct l. unfold withMonth. cbn. now rewrite Z.sub_0_r.
  - apply (live_then_eq p cal cu _ _ _ IH (live_prev_month p cal (withMonth l (currentMonth l - Z.of_nat n)) Hshows)).
    unfold withMonth. cbn. f_equal. lia.
Qed.

Lemma page_to cu l (k : Z) :
  liveReachable p cal cu l -> shows (modal l) StepDate ->
  liveReachable p cal cu (withMonth l k).
Proof.
  intros Hl Hshows. destruct (Z_le_gt_dec (currentMonth l) k) as [Hle | Hgt].
  - replace k with (currentMonth l + Z.of_nat (Z.to_nat (k - currentMonth l))) by lia.
    now apply page_forward.
  - replace k with (currentMonth l - Z.of_nat (Z.to_nat (currentMonth l - k))) by lia.
    now apply page_backward.
Qed.

(** X22. A time chosen for one date survives a change of date. With
    the calendar of the date step, which offers only the days of the month
    on display that are not before today and can be paged to any month,
    the user can pick a slot of a first date, go back to the date step,
    pick any other date from today on and come forward again to the
    details step with the earlier time still selected, whether or not the
    new date offers it: picking a date leaves the time as it is, and
    [nextStep] leaves the time step on any non-empty time. *)
Theorem chosen_time_survives_date_change (cu : option AuthUser.t) (first second : Date)
    (slot : string) :
  epochDay (today cal) <= epochDay first ->
  epochDay (today cal) <= epochDay second ->
  In slot (getAvailableTimes (Some first) (vendor p)) ->
  (exists l,
    liveReachable p cal cu l
    /\ shows (modal l) StepDetails
    /\ selectedDate (state (modal l)) = Some second
    /\ selectedTime (state (modal l)) = slot)
  /\ (forall d st, selectedTime (setSelectedDate d st) = selectedTime st)
  /\ (forall st,
      currentStep st = StepTime -> JS.truthy (selectedTime st) = true ->
      currentStep (nextStep cu st) = StepDetails).
Proof.
  intros Hfirst Hsecond Hin.
  split; [| split; [reflexivity | intros st Hstep Htime; unfold nextStep; now rewrite Hstep, Htime]].
  pose proof (slot_nonempty _ _ _ Hin) as Hne.
  destruct slot as [|c slot]; [contradiction |].
  set (time := String c slot) in *.
  exists (chosenLive cu StepDetails (Some second) time (monthOf cal second)).
  split; [| split; [split; reflexivity | split; reflexivity]].
  assert (liveReachable p cal cu (chosenLive cu StepDate None "" (monthOf cal first))) as H0.
  { exact (page_to cu (openedLive cal cu) (monthOf cal first) (live_opened p cal cu)
             (conj eq_refl eq_refl)). }
  assert (liveReachable p cal cu (chosenLive cu StepDate (Some first) "" (monthOf cal first))) as H1.
  { apply (live_then_eq p cal cu _ _ _ H0
             (live_pick_date p cal (chosenLive cu StepDate None "" (monthOf cal first)) first
                (conj eq_refl eq_refl) Hfirst eq_refl)).
    reflexivity. }
  assert (liveReachable p cal cu (chosenLive cu StepTime (Some first) "" (monthOf cal first))) as H2.
  { apply (live_then_eq p cal cu _ _ _ H1
             (live_next p cal (chosenLive cu StepDate (Some first) "" (monthOf cal first))
                eq_refl ltac:(discriminate) eq_refl)).
    reflexivity. }
  assert (liveReachable p cal cu (chosenLive cu StepTime (Some first) time (monthOf cal first))) as H3.
  { apply (live_then_eq p cal cu _ _ _ H2
             (live_pick_time p cal (chosenLive cu StepTime (Some first) "" (monthOf cal first)) time
                (conj eq_refl eq_refl) Hin)).
    reflexivity. }
  assert (liveReachable p cal cu (chosenLive cu StepDetails (Some first) time (monthOf cal first)))
    as H4.
  { apply (live_then_eq p cal cu _ _ _ H3
             (live_next p cal (chosenLive cu StepTime (Some first) time (monthOf cal first))
                eq_refl ltac:(discriminate) eq_refl)).
    reflexivity. }
  assert (liveReachable p cal cu (chosenLive cu StepTime (Some first) time (monthOf cal first))) as H5.
  { apply (live_then_eq p cal cu _ _ _ H4
             (live_prev p cal (chosenLive cu StepDetails (Some first) time (monthOf cal first))
                eq_refl ltac:(discriminate))).
    reflexivity. }
  assert (liveReachable p cal cu (chosenLive cu StepDate (Some first) time (monthOf cal first))) as H6.
  { apply (live_then_eq p cal cu _ _ _ H5
             (live_prev p cal (chosenLive cu StepTime (Some first) time (monthOf cal first))
                eq_refl ltac:(discriminate))).
    reflexivity. }
  assert (liveReachable p cal cu (chosenLive cu StepDate (Some first) time (monthOf cal second)))
    as H7.
  { exact (page_to cu (chosenLive cu StepDate (Some first) time (monthOf cal first))
             (monthOf cal second) H6 (conj eq_refl eq_refl)). }
  assert (liveReachable p cal cu (chosenLive cu StepDate (Some second) time (monthOf cal second)))
    as H8.
  { apply (live_then_eq p cal cu _ _ _ H7
             (live_pick_date p cal (chosenLive cu StepDate (Some first) time (monthOf cal second))
                second (conj eq_refl eq_refl) Hsecond eq_refl)).
    reflexivity. }
  assert (liveReachable p cal cu (chosenLive cu StepTime (Some second) time (monthOf cal second)))
    as H9.
  { apply (live_then_eq p cal cu _ _ _ H8
             (live_next p cal (chosenLive cu StepDate (Some second) time (monthOf cal second))
                eq_refl ltac:(discriminate) eq_refl)).
    reflexivity. }
  apply (live_then_eq p cal cu _ _ _ H9
           (live_next p cal (chosenLive cu StepTime (Some second) time (monthOf cal second))
              eq_refl ltac:(discriminate) eq_refl)).
  reflexivity.
Qed.

End StaleTime.

Lemma chosen_time_survives_date_change_witness :
  In "08:30" (getAvailableTimes (Some aThursday) (vendor washProps))
  /\ ~ In "08:30" (getAvailableTimes (Some aFriday) (vendor washProps))
  /\ exists l,
       liveReachable washProps newYearCalendar None l
       /\ shows (modal l) StepDetails
       /\ selectedDate (state (modal l)) = Some aFriday
       /\ selectedTime (state (modal l)) = "08:30".
Proof.
  assert (In "08:30" (getAvailableTimes (Some aThursday) (vendor washProps))) as Hin
    by (vm_compute; auto).
  split; [exact Hin |]. split.
  - vm_compute. intros H. repeat (destruct H as [H | H]; [discriminate H |]). exact H.
  - exact (proj1 (chosen_time_survives_date_change washProps newYearCalendar None
                    aThursday aFriday "08:30"
                    ltac:(vm_compute; discriminate) ltac:(vm_compute; discriminate) Hin)).
Defined.

Section ProfilePage.

Local Arguments append : simpl nomatch.

(** X23. The opening line of the profile and the availability of the
    modal read the same table but fall back differently. Where the table
    has the weekday, the line says closed exactly when the modal marks the
    date unavailable, and a line of 24 hours goes with the 48 slots. Where
    the weekday is missing, the modal offers 09:00 to 16:30 and marks the
    date available, while the line shows Monday's hours, closed if Monday
    is closed, and cannot be built at all if Monday is missing too. *)
Theorem opening_line_against_availability today vendor :
  (forall h,
   operatingHours vendor !! JS.toLowerCase (formatEEEE today) = Some h ->
   (VendorProfile.openingLine today vendor = Some "Suljettu tänään" <->
    hasAvailableTimes today vendor = false)
   /\ (VendorProfile.openingLine today vendor = Some "Avoinna 24h" ->
       getAvailableTimes (Some today) vendor = aroundTheClock))
  /\ (operatingHours vendor !! JS.toLowerCase (formatEEEE today) = None ->
      getAvailableTimes (Some today) vendor = nineToFive
      /\ hasAvailableTimes today vendor = true
      /\ (operatingHours vendor !! "monday" = Some {| open := "closed"; close := "closed" |} ->
          VendorProfile.openingLine today vendor = Some "Suljettu tänään")
      /\ (operatingHours vendor !! "monday" = None ->
          VendorProfile.openingLine today vendor = None)).
Proof.
  split.
  - intros h Hkey.
    assert (getDayOperatingHours today vendor = h) as Hhours
      by (unfold getDayOperatingHours; now rewrite Hkey).
    unfold VendorProfile.openingLine, VendorProfile.todayHours, hasAvailableTimes.
    rewrite Hkey, Hhours.
    change (String.eqb (open h) "closed" && String.eqb (close h) "closed")
      with (isClosed h).
    change (String.eqb (open h) "00:00" && String.eqb (close h) "23:59")
      with (isFullDay h).
    destruct (isClosed h) eqn:Hclosed; cbn [negb].
    + split; [split; reflexivity | discriminate].
    + split.
      * destruct (isFullDay h); cbn; split; discriminate.
      * destruct (isFullDay h) eqn:Hfull; [| cbn; discriminate].
        intros _. rewrite getAvailableTimes_parsed. cbv zeta.
        rewrite Hhours, Hclosed, Hfull. apply fullDay_grid.
  - intros Hkey.
    pose proof (default_hours today vendor Hkey) as Hhours.
    split; [now apply nineToFive_slots |].
    split; [unfold hasAvailableTimes; now rewrite Hhours |].
    unfold VendorProfile.openingLine, VendorProfile.todayHours. rewrite Hkey.
    split; intros ->; reflexivity.
Qed.


(** X25. An offer card prices the first service with the offer's id at the
    offer's percentage without looking at the offer's window, while the
    price row of the same service looks at it: when no offer for the
    service holds the instant, the row shows the base price and the card
    still shows the reduced one. An offer for a service the vendor does not
    list gets no card. *)
Theorem offer_card_ignores_validity_window services offers instant o :
  (forall service,
   List.find (fun s => String.eqb (Service.id s) (Offer.serviceId o)) services = Some service ->
   (forall o', In o' offers -> offerApplies (Service.id service) instant o' = false) ->
   Service.id service = Offer.serviceId o
   /\ VendorProfile.offerCardPrice services o =
      Some (Service.price service * (1 - Offer.discountPercentage o / 100))%Q
   /\ VendorProfile.getServiceDiscount offers instant service = 0%Q
   /\ VendorProfile.getDiscountedPrice offers instant service = Service.price service)
  /\ ((forall s, In s services -> Service.id s <> Offer.serviceId o) ->
      VendorProfile.offerCardPrice services o = None).
Proof.
  split.
  - intros service Hfind Hnone.
    split; [apply find_some in Hfind as [_ Hid]; now apply String.eqb_eq in Hid |].
    split; [unfold VendorProfile.offerCardPrice; now rewrite Hfind |].
    assert (VendorProfile.getServiceDiscount offers instant service = 0%Q) as Hd.
    { unfold VendorProfile.getServiceDiscount. cbv zeta.
      change (fun o0 : Offer.t =>
                String.eqb (Offer.serviceId o0) (Service.id service) &&
                (Offer.startDate o0 <=? instant) && (Offer.endDate o0 >=? instant))
        with (offerApplies (Service.id service) instant).
      now rewrite (proj2 (find_none_iff _ offers) Hnone). }
    split; [exact Hd |].
    unfold VendorProfile.getDiscountedPrice. now rewrite Hd.
  - intros Hmissing. unfold VendorProfile.offerCardPrice.
    destruct (List.find _ services) as [service|] eqn:Hfind; [| reflexivity].
    apply find_some in Hfind as [Hin Hid]. apply String.eqb_eq in Hid.
    now apply Hmissing in Hin.
Qed.

End ProfilePage.


Lemma opening_line_against_availability_witness :
  operatingHours mondayClosedVendor !! JS.toLowerCase (formatEEEE aThursday) = None
  /\ VendorProfile.openingLine aThursday mondayClosedVendor = Some "Suljettu tänään"
  /\ hasAvailableTimes aThursday mondayClosedVendor = true
  /\ getAvailableTimes (Some aThursday) mondayClosedVendor = nineToFive.
Proof.
  assert (operatingHours mondayClosedVendor !! JS.toLowerCase (formatEEEE aThursday) = None)
    as Hkey by (vm_compute; reflexivity).
  destruct (proj2 (opening_line_against_availability aThursday mondayClosedVendor) Hkey)
    as (Hslots & Havailable & Hclosed & _).
  split; [exact Hkey |]. split; [apply Hclosed; vm_compute; reflexivity |].
  split; [exact Havailable | exact Hslots].
Defined.
